(** * Verification model of the RAG server of sayyidkhan/mastra-dev

    Shallow embedding of the parts of [src/src/supabase-rag-system.ts] and of
    the server and Mastra modules ([src/unnamed/part_001]) that the document
    selection, similarity ranking, throttling and query paths depend on.
    External collaborators (Supabase, the SambaNova HTTP API, the Mastra agent
    runtime) appear as the outcomes of their calls, passed in as arguments. *)

From Stdlib Require Import String Ascii List Bool ZArith QArith Sorted Lia Lqa Qround.
Import ListNotations.
Open Scope string_scope.

(** Outcome of an awaited external call: a value, or a thrown [Error] with its
    message. *)
Inductive Result (A : Type) : Type :=
| Ok (a : A)
| Err (msg : string).
Arguments Ok {A} a.
Arguments Err {A} msg.

(** ** JavaScript string helpers *)
Module JsString.

(** [String.prototype.toLowerCase] on the ASCII range. *)
Definition lower_char (c : ascii) : ascii :=
  let n := nat_of_ascii c in
  if (65 <=? n)%nat && (n <=? 90)%nat then ascii_of_nat (n + 32) else c.

Fixpoint toLowerCase (s : string) : string :=
  match s with
  | EmptyString => EmptyString
  | String c t => String (lower_char c) (toLowerCase t)
  end.

(** [hay.includes(needle)]: [needle] occurs in [hay] at some offset. *)
Fixpoint includes (hay needle : string) : bool :=
  String.prefix needle hay ||
  match hay with
  | EmptyString => false
  | String _ t => includes t needle
  end.

(** [xs.join(sep)]. *)
Definition join (sep : string) (xs : list string) : string :=
  String.concat sep xs.

(** [xs.includes(x)] on an array of strings. *)
Definition array_includes (xs : list string) (x : string) : bool :=
  existsb (String.eqb x) xs.

End JsString.

(** ** Document selection of the [/query] handler (part_001, lines 900-940) *)
Module Selector.
Import JsString.

(** Row of the [documents] table as returned by [getAllDocuments]. The
    [tags] column is nullable; this record covers rows whose [tags] is an
    array, as the properties stated over it assume. *)
Record SupabaseDocument := {
  id : string;
  content : string;
  file_name : string;
  file_size : Z;
  file_type : string;
  storage_path : string;
  source : string;
  tags : list string;
  created_at : string
}.

(** [EnhancedQueryRequest]; an absent optional field is [None]. *)
Record EnhancedQueryRequest := {
  prompt : string;
  documentIds : option (list string);
  documentNames : option (list string);
  qtags : option (list string);
  useAllDocuments : option bool;
  userResponse : option string
}.

(** [xs && xs.length > 0] for an optional array. *)
Definition nonEmpty (xs : option (list string)) : bool :=
  match xs with
  | Some (_ :: _) => true
  | _ => false
  end.

(** [!xs] for an optional array: arrays, even empty ones, are truthy. *)
Definition absent {A} (xs : option A) : bool :=
  match xs with None => true | Some _ => false end.

(** [useAllDocuments || ...] : absent is falsy. *)
Definition truthy (b : option bool) : bool :=
  match b with Some true => true | _ => false end.

Definition list_or_nil (xs : option (list string)) : list string :=
  match xs with Some l => l | None => [] end.

Definition nameMatches (names : list string) (doc : SupabaseDocument) : bool :=
  existsb (fun name =>
    includes (toLowerCase (file_name doc)) (toLowerCase name) ||
    includes (toLowerCase (source doc)) (toLowerCase name)) names.

Definition tagMatches (ts : list string) (doc : SupabaseDocument) : bool :=
  existsb (fun tag => array_includes (tags doc) tag) ts.

(** [selectedDocuments.filter(doc => other.some(o => o.id === doc.id))] *)
Definition intersectById (sel other : list SupabaseDocument) : list SupabaseDocument :=
  filter (fun doc => existsb (fun o => String.eqb (id o) (id doc)) other) sel.

(** Each [await ragSystem.getAllDocuments()] of one request is taken to
    return the same snapshot [allDocs]. The result is
    [(selectedDocuments, selectionCriteria)]. *)
Definition selectDocuments (req : EnhancedQueryRequest)
    (allDocs : list SupabaseDocument) : list SupabaseDocument * list string :=
  let ids := list_or_nil (documentIds req) in
  let names := list_or_nil (documentNames req) in
  let ts := list_or_nil (qtags req) in
  (* step 1: documentIds *)
  let '(sel1, crit1) :=
    if nonEmpty (documentIds req)
    then (filter (fun doc => array_includes ids (id doc)) allDocs,
          ["Document IDs: " ++ join ", " ids])
    else ([], []) in
  (* step 2: documentNames *)
  let '(sel2, crit2) :=
    if nonEmpty (documentNames req)
    then let nameSelected := filter (nameMatches names) allDocs in
         (match sel1 with
          | _ :: _ => intersectById sel1 nameSelected
          | [] => nameSelected
          end,
          app crit1 ["Document Names: " ++ join ", " names])
    else (sel1, crit1) in
  (* step 3: tags *)
  let '(sel3, crit3) :=
    if nonEmpty (qtags req)
    then let tagSelected := filter (tagMatches ts) allDocs in
         (match sel2 with
          | _ :: _ => intersectById sel2 tagSelected
          | [] => tagSelected
          end,
          app crit2 ["Tags: " ++ join ", " ts])
    else (sel2, crit2) in
  (* step 4: useAllDocuments or nothing supplied *)
  if truthy (useAllDocuments req) ||
     (match sel3 with [] => true | _ => false end &&
      absent (documentIds req) && absent (documentNames req) && absent (qtags req))
  then (allDocs, app crit3 ["All available documents"])
  else (sel3, crit3).

End Selector.

(** ** JavaScript numbers *)
Module Num.
Open Scope Q_scope.

(** A [number] is a finite value, kept exact as a rational, or [NaN].
    Overflow to an infinity does not arise over [Q]. *)
Inductive num : Type :=
| Fin (q : Q)
| NaN.

Definition add (x y : num) : num :=
  match x, y with Fin a, Fin b => Fin (a + b) | _, _ => NaN end.

Definition sub (x y : num) : num :=
  match x, y with Fin a, Fin b => Fin (a - b) | _, _ => NaN end.

Definition mul (x y : num) : num :=
  match x, y with Fin a, Fin b => Fin (a * b) | _, _ => NaN end.

(** [x / y]; a zero divisor gives a non-finite value, written [NaN] here. *)
Definition div (x y : num) : num :=
  match x, y with
  | Fin a, Fin b => if Qeq_bool b 0 then NaN else Fin (a / b)
  | _, _ => NaN
  end.

(** [Math.sqrt]: [NaN] on negative or [NaN] arguments; on [n/d >= 0] the
    root [sqrt(n*d)/d] rounded down to a multiple of [1/(d*10^6)], which is
    exact at [0] and positive on every positive argument. *)
Definition sqrt (x : num) : num :=
  match x with
  | Fin q =>
      if Qle_bool 0 q
      then Fin (Qmake (Z.sqrt (Qnum q * Zpos (Qden q) * 10 ^ 12))
                      (Qden q * 1000000))
      else NaN
  | NaN => NaN
  end.

(** [x === 0]. *)
Definition is_zero (x : num) : bool :=
  match x with Fin q => Qeq_bool q 0 | NaN => false end.

(** [x >= t] for a finite threshold [t]; false on [NaN]. *)
Definition ge (x : num) (t : Q) : bool :=
  match x with Fin q => Qle_bool t q | NaN => false end.

(** [x >= y]; false when either is [NaN]. *)
Definition num_ge (x y : num) : bool :=
  match x, y with Fin a, Fin b => Qle_bool b a | _, _ => false end.

Definition is_fin (x : num) : bool :=
  match x with Fin _ => true | NaN => false end.

End Num.

(** ** Similarity ranking of [SupabaseRAGSystem] (supabase-rag-system.ts) *)
Module Ranker.
Import Num.
Open Scope Q_scope.

Record RAGConfig := {
  maxContextDocuments : Z;
  similarityThreshold : Q;
  embeddingDimension : Z;
  rateLimitDelayMs : Z
}.

(** [Document.metadata]. *)
Record Metadata := {
  mid : string;
  msource : string;
  mtags : list string;
  mfile_name : option string;
  mstorage_path : option string
}.

Record Document := {
  did : string;
  dcontent : string;
  dmeta : Metadata
}.

(** Element of [this.embeddings]: [{ text, embedding, metadata }]. The
    entries covered are those whose [embedding] is an array; an entry
    loaded from a row with a [NULL] embedding is not represented. *)
Record EmbeddingItem := {
  etext : string;
  embedding : list Q;
  emeta : Metadata
}.

(** [a.reduce((sum, ai, i) => sum + ai * b[i], 0)]; reading [b[i]] past
    the end of [b] yields [undefined], and [ai * undefined] is [NaN]. *)
Fixpoint dot_acc (a b : list Q) (acc : num) : num :=
  match a, b with
  | [], _ => acc
  | ai :: a', bi :: b' => dot_acc a' b' (add acc (Fin (ai * bi)))
  | ai :: a', [] => dot_acc a' [] (add acc NaN)
  end.

(** [a.reduce((sum, ai) => sum + ai * ai, 0)] *)
Definition sum_squares (a : list Q) : num :=
  fold_left (fun s ai => add s (Fin (ai * ai))) a (Fin 0).

Definition cosineSimilarity (a b : list Q) : num :=
  let dotProduct := dot_acc a b (Fin 0) in
  let magnitudeA := sqrt (sum_squares a) in
  let magnitudeB := sqrt (sum_squares b) in
  if is_zero magnitudeA || is_zero magnitudeB then Fin 0
  else div dotProduct (mul magnitudeA magnitudeB).

(** Element of [similarities]: [{ document, similarity, metadata }];
    [document] is the result of [this.documents.find(...)], [None] for
    [undefined]. *)
Record Scored := {
  sdoc : option Document;
  similarity : num;
  smeta : Metadata
}.

Definition similarities (queryEmbedding : list Q) (documents : list Document)
    (embeddings : list EmbeddingItem) : list Scored :=
  map (fun item =>
    {| sdoc := find (fun doc => String.eqb (did doc) (mid (emeta item))) documents;
       similarity := cosineSimilarity queryEmbedding (embedding item);
       smeta := emeta item |}) embeddings.

(** The comparator [(a, b) => b.similarity - a.similarity]; a [NaN]
    comparator result counts as [+0]. *)
Definition compare (a b : Scored) : Q :=
  match sub (similarity b) (similarity a) with Fin q => q | NaN => 0 end.

(** [Array.prototype.sort] is stable: each element is placed after the
    earlier elements that do not compare greater than it. *)
Fixpoint insert (x : Scored) (l : list Scored) : list Scored :=
  match l with
  | [] => [x]
  | y :: ys =>
      if negb (Qle_bool (compare x y) 0) then y :: insert x ys
      else x :: y :: ys
  end.

Fixpoint sort (l : list Scored) : list Scored :=
  match l with
  | [] => []
  | x :: xs => insert x (sort xs)
  end.

(** [l.slice(0, n)] for an integer [n]: a negative end counts from the
    end of the array. *)
Definition slice0 {A} (n : Z) (l : list A) : list A :=
  if (n <? 0)%Z then firstn (Z.to_nat (Z.of_nat (length l) + n)) l
  else firstn (Z.to_nat n) l.

Definition aboveThreshold (config : RAGConfig) (item : Scored) : bool :=
  ge (similarity item) (similarityThreshold config).

(** [similarities.filter(...).sort(...).slice(0, maxContextDocuments)] *)
Definition rank (config : RAGConfig) (sims : list Scored) : list Scored :=
  slice0 (maxContextDocuments config)
    (sort (filter (aboveThreshold config) sims)).

Definition relevantDocs (config : RAGConfig) (queryEmbedding : list Q)
    (documents : list Document) (embeddings : list EmbeddingItem) : list Scored :=
  rank config (similarities queryEmbedding documents embeddings).

End Ranker.

(** ** Concrete inputs and specification predicates for the selector *)
Module SelectorFixtures.
Import Selector.

Definition doc_income : SupabaseDocument :=
  {| id := "1"; content := "Revenue: 100"; file_name := "report.csv";
     file_size := 12; file_type := "text/csv"; storage_path := "";
     source := "report.csv"; tags := ["financial"]; created_at := "" |}.

Definition req_names_tags : EnhancedQueryRequest :=
  {| prompt := "What is revenue?"; documentIds := None;
     documentNames := Some ["income"]; qtags := Some ["financial"];
     useAllDocuments := Some false; userResponse := None |}.

Definition req_plain : EnhancedQueryRequest :=
  {| prompt := "What is revenue?"; documentIds := None;
     documentNames := None; qtags := None;
     useAllDocuments := None; userResponse := None |}.

Definition req_empty_ids : EnhancedQueryRequest :=
  {| prompt := "What is revenue?"; documentIds := Some [];
     documentNames := None; qtags := None;
     useAllDocuments := Some false; userResponse := None |}.

(** A criteria field that is absent or an explicitly empty array. *)
Definition absent_or_empty (xs : option (list string)) : Prop :=
  xs = None \/ xs = Some [].

End SelectorFixtures.

(** ** [SupabaseRAGSystem.query] (supabase-rag-system.ts, lines 430-481) *)
Module RagQuery.
Import Num Ranker.
Open Scope Q_scope.

Record QueryResult := {
  response : string;
  context : list (option Document);
  confidence : num;
  (** elapsed milliseconds; the code formats them as seconds *)
  processingTime : Z
}.

(** Requests sent to the SambaNova API, in order. *)
Inductive ExtCall :=
| CallEmbeddings (texts : list string)
| CallChat (prompt context : string).

Definition nl : string := String (ascii_of_nat 10) EmptyString.

Definition noInfoMessage : string :=
  "I couldn't find relevant information in the uploaded documents to answer your question.".

Definition noInfoResult (elapsed : Z) : QueryResult :=
  {| response := noInfoMessage; context := []; confidence := Fin 0;
     processingTime := elapsed |}.

(** [this.embeddings.map(...)] with [queryEmbedding = queryEmbeddings[0]];
    an [undefined] query vector makes [cosineSimilarity] throw a
    [TypeError] at [a.reduce] as soon as one stored embedding exists. *)
Definition scoreAll (queryEmbedding : option (list Q)) (documents : list Document)
    (embeddings : list EmbeddingItem) : Result (list Scored) :=
  match embeddings with
  | [] => Ok []
  | _ :: _ =>
      match queryEmbedding with
      | Some v => Ok (similarities v documents embeddings)
      | None => Err "TypeError"
      end
  end.

(** [relevantDocs.map(item => `Source: ...\n${item.document.content}`)
    .join('\n\n---\n\n')]; an [undefined] document throws. *)
Fixpoint contextParts (rel : list Scored) : option (list string) :=
  match rel with
  | [] => Some []
  | item :: rest =>
      match sdoc item, contextParts rest with
      | Some d, Some ps => Some (("Source: " ++ msource (smeta item) ++ nl ++ dcontent d) :: ps)
      | _, _ => None
      end
  end.

Definition contextSep : string := nl ++ nl ++ "---" ++ nl ++ nl.

(** [Number(x.toFixed(3))]: nearest multiple of 1/1000, ties away from 0. *)
Definition toFixed3 (x : num) : num :=
  match x with
  | Fin q =>
      if Qle_bool 0 q then Fin (Qmake (Qfloor (q * 1000 + (1 # 2))) 1000)
      else Fin (Qmake (- Qfloor (- q * 1000 + (1 # 2))) 1000)
  | NaN => NaN
  end.

Definition sumSimilarity (rel : list Scored) : num :=
  fold_left (fun s item => add s (similarity item)) rel (Fin 0).

(** One call of [query prompt]: [embedRes] is the outcome of
    [getSambaNovaEmbeddings([prompt])], [chatRes] that of
    [getSambaNovaResponse] if it is made; errors are rethrown. *)
Definition query (config : RAGConfig) (documents : list Document)
    (embeddings : list EmbeddingItem) (prompt : string)
    (embedRes : Result (list (list Q))) (chatRes : Result string)
    (elapsed : Z) : list ExtCall * Result QueryResult :=
  let calls := [CallEmbeddings [prompt]] in
  match embedRes with
  | Err m => (calls, Err m)
  | Ok queryEmbeddings =>
      match scoreAll (hd_error queryEmbeddings) documents embeddings with
      | Err m => (calls, Err m)
      | Ok sims =>
          let rel := rank config sims in
          match rel with
          | [] => (calls, Ok (noInfoResult elapsed))
          | _ :: _ =>
              match contextParts rel with
              | None => (calls, Err "TypeError")
              | Some parts =>
                  let ctx := JsString.join contextSep parts in
                  let calls' := (calls ++ [CallChat prompt ctx])%list in
                  match chatRes with
                  | Err m => (calls', Err m)
                  | Ok resp =>
                      (calls', Ok {| response := resp;
                                     context := map sdoc rel;
                                     confidence := toFixed3 (div (sumSimilarity rel)
                                                   (Fin (inject_Z (Z.of_nat (length rel)))));
                                     processingTime := elapsed |})
                  end
              end
          end
      end
  end.

End RagQuery.

(** ** The Mastra query path: [MastraRAGSystem.query], its vector-search tool
    and the [/query] handler (part_001) *)
Module MastraQuery.
Open Scope Q_scope.

Record MQueryResult := {
  mresponse : string;
  mcontext : list string;
  mconfidence : Q;
  mprocessingTime : Z;
  recommendations : list string
}.

(** [MastraRAGSystem.query]; [agentRes] is the outcome of
    [this.agent.generate(...)]: [Ok] its [result.text], [Err] the message
    of the error it rejects with. *)
Definition mastra_query (agentRes : Result string) (elapsed : Z) : MQueryResult :=
  match agentRes with
  | Ok text =>
      {| mresponse := text; mcontext := []; mconfidence := 8 # 10;
         mprocessingTime := elapsed; recommendations := [] |}
  | Err m =>
      {| mresponse := "I apologize, but I encountered an error while processing your query: "
                      ++ m ++ ". Please try again.";
         mcontext := []; mconfidence := 0; mprocessingTime := elapsed;
         recommendations := [] |}
  end.

(** The [data] part of a successful [/query] reply. *)
Record ApiQueryResponse := {
  success : bool;
  data_response : string;
  data_confidence : Q;
  data_selectedCount : nat
}.

(** The [/query] handler after document selection:
    [await mastraRagSystem.query(enhancedPrompt)] and packaging. *)
Definition query_handler (selectedCount : nat) (agentRes : Result string)
    (elapsed : Z) : ApiQueryResponse :=
  let result := mastra_query agentRes elapsed in
  {| success := true; data_response := mresponse result;
     data_confidence := mconfidence result; data_selectedCount := selectedCount |}.

End MastraQuery.

(** ** The two SambaNova throttlers *)
Module Throttle.
Open Scope Z_scope.

(** Fields of [SambaNovaProvider] (part_001, lines 20-27). *)
Record RateState := {
  lastRequestTime : Z;
  requestCount : Z;
  lastResetTime : Z
}.

Record RateConfig := {
  rateLimitDelayMs : Z;
  maxRequestsPerMinute : Z
}.

(** [CONFIG.RAG.RATE_LIMIT_DELAY_MS] and [MAX_REQUESTS_PER_MINUTE]. *)
Definition providerConfig : RateConfig :=
  {| rateLimitDelayMs := 8000; maxRequestsPerMinute := 5 |}.

(** State of a provider constructed at time [t0]. *)
Definition provider_init (t0 : Z) : RateState :=
  {| lastRequestTime := 0; requestCount := 0; lastResetTime := t0 |}.

(** [SambaNovaProvider.enforceRateLimit] entered at [Date.now() = now].
    Each [await new Promise(r => setTimeout(r, d))] resumes [d] ms later.
    Returns the new fields and the time at which the caller proceeds. *)
Definition provider_enforce (cfg : RateConfig) (st : RateState) (now : Z)
    : RateState * Z :=
  let timeSinceLastRequest := now - lastRequestTime st in
  (* reset request count every minute *)
  let '(count0, reset0) :=
    if now - lastResetTime st >? 60000 then (0, now)
    else (requestCount st, lastResetTime st) in
  (* per-minute cap *)
  let '(count1, reset1, t1) :=
    if count0 >=? maxRequestsPerMinute cfg then
      let waitTime := 60000 - (now - reset0) in
      if waitTime >? 0 then (0, now + waitTime, now + waitTime)
      else (count0, reset0, now)
    else (count0, reset0, now) in
  (* minimum delay, against [timeSinceLastRequest] computed on entry *)
  let t2 :=
    if timeSinceLastRequest <? rateLimitDelayMs cfg
    then t1 + (rateLimitDelayMs cfg - timeSinceLastRequest)
    else t1 in
  ({| lastRequestTime := t2; requestCount := count1 + 1;
      lastResetTime := reset1 |}, t2).

(** The ordering the specification describes (§4.1, step 3 after step 2):
    the inter-call delay is measured from the time after the window wait.
    Used only for comparison with [provider_enforce]. *)
Definition provider_enforce_after_wait (cfg : RateConfig) (st : RateState)
    (now : Z) : RateState * Z :=
  let '(count0, reset0) :=
    if now - lastResetTime st >? 60000 then (0, now)
    else (requestCount st, lastResetTime st) in
  let '(count1, reset1, t1) :=
    if count0 >=? maxRequestsPerMinute cfg then
      let waitTime := 60000 - (now - reset0) in
      if waitTime >? 0 then (0, now + waitTime, now + waitTime)
      else (count0, reset0, now)
    else (count0, reset0, now) in
  let elapsed := t1 - lastRequestTime st in
  let t2 :=
    if elapsed <? rateLimitDelayMs cfg
    then t1 + (rateLimitDelayMs cfg - elapsed) else t1 in
  ({| lastRequestTime := t2; requestCount := count1 + 1;
      lastResetTime := reset1 |}, t2).

(** Successive calls through one provider, each entering at the given
    time; the result lists the times at which they proceed. *)
Fixpoint provider_run (cfg : RateConfig) (st : RateState) (arrivals : list Z)
    : list Z :=
  match arrivals with
  | [] => []
  | now :: rest =>
      let '(st', t) := provider_enforce cfg st now in t :: provider_run cfg st' rest
  end.

(** [SupabaseRAGSystem.enforceRateLimit] (supabase-rag-system.ts, lines
    75-86) with [this.config.rateLimitDelayMs = delay]: returns the new
    [lastRequestTime] and the time at which the caller proceeds. *)
Definition supabase_enforce (delay lastRequest now : Z) : Z * Z :=
  let timeSinceLastRequest := now - lastRequest in
  let t :=
    if timeSinceLastRequest <? delay
    then now + (delay - timeSinceLastRequest) else now in
  (t, t).

(** The two clients that reach the SambaNova API: [ragSystem]
    ([SupabaseRAGSystem], for uploads and [addDocuments]) and the
    [SambaNovaProvider] of [mastraRagSystem] (for [/query]). *)
Inductive Client := SupabaseClient | ProviderClient.

Record Process := {
  supabaseLast : Z;
  provider : RateState
}.

(** [getRagConfig().rateLimitDelayMs]. *)
Definition supabaseDelay : Z := 8000.

(** Both systems are created at start-up, at time [t0]. *)
Definition process_init (t0 : Z) : Process :=
  {| supabaseLast := 0; provider := provider_init t0 |}.

Definition acquire (p : Process) (c : Client) (now : Z) : Process * Z :=
  match c with
  | SupabaseClient =>
      let '(l, t) := supabase_enforce supabaseDelay (supabaseLast p) now in
      ({| supabaseLast := l; provider := provider p |}, t)
  | ProviderClient =>
      let '(st, t) := provider_enforce providerConfig (provider p) now in
      ({| supabaseLast := supabaseLast p; provider := st |}, t)
  end.

Fixpoint process_run (p : Process) (calls : list (Client * Z)) : list Z :=
  match calls with
  | [] => []
  | (c, now) :: rest =>
      let '(p', t) := acquire p c now in t :: process_run p' rest
  end.

End Throttle.

(** ** In-memory copy of the store held by [SupabaseRAGSystem] *)
Module Memory.
Import Ranker.
Open Scope Q_scope.

(** Fields [documents] and [embeddings] of [SupabaseRAGSystem]. *)
Record RagState := {
  documents : list Document;
  embeddings : list EmbeddingItem
}.

(** A row of the [documents] table; [tags] may be [null]. Rows whose
    [embedding] is [NULL] are not represented. *)
Record DbRow := {
  rid : string;
  rcontent : string;
  rfile_name : string;
  rsource : string;
  rtags : option (list string);
  rembedding : list Q;
  rstorage_path : string
}.

Definition rowMeta (doc : DbRow) : Metadata :=
  {| mid := rid doc; msource := rsource doc;
     mtags := match rtags doc with Some t => t | None => [] end;
     mfile_name := Some (rfile_name doc);
     mstorage_path := Some (rstorage_path doc) |}.

(** [loadDocumentsFromSupabase]: [res] is the outcome of the select
    ([data] possibly [null]); errors are only logged. *)
Definition loadDocumentsFromSupabase (res : Result (option (list DbRow)))
    (st : RagState) : RagState :=
  match res with
  | Ok (Some ((_ :: _) as supabaseDocs)) =>
      {| documents := map (fun doc => {| did := rid doc; dcontent := rcontent doc;
                                         dmeta := rowMeta doc |}) supabaseDocs;
         embeddings := map (fun doc => {| etext := rcontent doc;
                                          embedding := rembedding doc;
                                          emeta := rowMeta doc |}) supabaseDocs |}
  | _ => st
  end.

Record UploadedFile := {
  originalname : string;
  mimetype : string;
  size : Z
}.

(** [uploadFile(file, tags)]. [stamp] is [Date.now()] in decimal,
    [uploadRes] the storage upload outcome, [contentRes] the extracted text
    (PDF parsing may throw), [embedRes] the embeddings call and [insertRes]
    the id of the inserted row. An [undefined] [embeddings[0]] is written
    as the empty vector. *)
Definition uploadFile (st : RagState) (file : UploadedFile) (tags : list string)
    (stamp : string) (uploadRes : Result unit) (contentRes : Result string)
    (embedRes : Result (list (list Q))) (insertRes : Result string)
    : RagState * Result Document :=
  let filePath := "documents/" ++ stamp ++ "-" ++ originalname file in
  match uploadRes with
  | Err m => (st, Err ("File upload failed: " ++ m))
  | Ok _ =>
    match contentRes with
    | Err m => (st, Err m)
    | Ok content =>
      match embedRes with
      | Err m => (st, Err m)
      | Ok es =>
        (* [embeddings[0]]; an empty reply, where it is [undefined], is
           represented by the empty vector *)
        let emb := hd [] es in
        match insertRes with
        | Err m => (st, Err ("Database insert failed: " ++ m))
        | Ok newId =>
          let meta := {| mid := newId; msource := originalname file; mtags := tags;
                         mfile_name := Some (originalname file);
                         mstorage_path := Some filePath |} in
          let document := {| did := newId; dcontent := content; dmeta := meta |} in
          ({| documents := documents st ++ [document];
              embeddings := embeddings st ++
                [{| etext := content; embedding := emb; emeta := meta |}] |},
           Ok document)
        end
      end
    end
  end.

(** [doc.id = insertedData[index].id; doc.metadata.id = insertedData[index].id]
    over [documents.forEach]; a missing row throws a [TypeError]. *)
Definition setId (doc : Document) (newId : string) : Document :=
  {| did := newId; dcontent := dcontent doc;
     dmeta := {| mid := newId; msource := msource (dmeta doc);
                 mtags := mtags (dmeta doc); mfile_name := mfile_name (dmeta doc);
                 mstorage_path := mstorage_path (dmeta doc) |} |}.

Fixpoint assignIds (docs : list Document) (rows : list string)
    : option (list Document) :=
  match docs, rows with
  | [], _ => Some []
  | doc :: ds, r :: rs =>
      match assignIds ds rs with Some ds' => Some (setId doc r :: ds') | None => None end
  | _ :: _, [] => None
  end.

(** [embeddings.map((embedding, index) => ({ text: documents[index].content,
    ... }))]; an index past [documents] throws a [TypeError]. *)
Fixpoint embeddingItems (es : list (list Q)) (docs : list Document)
    : option (list EmbeddingItem) :=
  match es, docs with
  | [], _ => Some []
  | e :: es', doc :: ds =>
      match embeddingItems es' ds with
      | Some items => Some ({| etext := dcontent doc; embedding := e;
                               emeta := dmeta doc |} :: items)
      | None => None
      end
  | _ :: _, [] => None
  end.

(** [addDocuments(documents)]: [insertRes] is the outcome of the insert,
    its [data] (the new row ids) possibly [null]. *)
Definition addDocuments (st : RagState) (docs : list Document)
    (embedRes : Result (list (list Q)))
    (insertRes : Result (option (list string))) : RagState * Result unit :=
  match embedRes with
  | Err m => (st, Err m)
  | Ok es =>
    match insertRes with
    | Err m => (st, Err ("Database insert failed: " ++ m))
    | Ok insertedData =>
      match (match insertedData with
             | Some rows => assignIds docs rows
             | None => Some docs
             end) with
      | None => (st, Err "TypeError")
      | Some docs' =>
        (* this.documents.push(...documents) runs before the map *)
        match embeddingItems es docs' with
        | Some items =>
            ({| documents := documents st ++ docs';
                embeddings := embeddings st ++ items |}, Ok tt)
        | None =>
            ({| documents := documents st ++ docs';
                embeddings := embeddings st |}, Err "TypeError")
        end
      end
    end
  end.

(** [deleteDocument(id)]: [getRes] is [getDocumentById(id)], [removeRes]
    the storage removal (a failure is only logged), [deleteRes] the row
    deletion. *)
Definition deleteDocument (st : RagState) (id : string)
    (getRes : Result (option DbRow)) (removeRes : Result unit)
    (deleteRes : Result unit) : RagState * Result bool :=
  match getRes with
  | Err m => (st, Err m)
  | Ok None => (st, Ok false)
  | Ok (Some _) =>
    match deleteRes with
    | Err m => (st, Err ("Failed to delete document: " ++ m))
    | Ok _ =>
        ({| documents := filter (fun doc => negb (String.eqb (did doc) id))
                           (documents st);
            embeddings := filter (fun emb => negb (String.eqb (mid (emeta emb)) id))
                            (embeddings st) |}, Ok true)
    end
  end.

(** [clearDocuments()]. *)
Definition clearDocuments (st : RagState) (res : Result unit)
    : RagState * Result unit :=
  match res with
  | Err m => (st, Err ("Failed to clear documents: " ++ m))
  | Ok _ => ({| documents := []; embeddings := [] |}, Ok tt)
  end.

(** The two lists have equal length and agree position by position on
    the document id. *)
Definition consistent (st : RagState) : Prop :=
  map did (documents st) = map (fun emb => mid (emeta emb)) (embeddings st).

(** [Document] objects whose [id] and [metadata.id] agree, as built by the
    [/documents] handler. *)
Definition wellFormed (doc : Document) : Prop := did doc = mid (dmeta doc).

Definition empty_state : RagState := {| documents := []; embeddings := [] |}.

End Memory.

(** ** Ordering notions used to state the ranker's properties *)
Module RankOrder.
Import Num Ranker.
Open Scope Q_scope.

(** The similarity of an entry, read as a rational ([0] for [NaN]). *)
Definition val (x : Scored) : Q :=
  match similarity x with Fin q => q | NaN => 0 end.

Definition fin (x : Scored) : Prop := is_fin (similarity x) = true.

(** [x] may precede [y] in a list sorted by descending similarity. *)
Definition desc (x y : Scored) : Prop :=
  num_ge (similarity x) (similarity y) = true.

(** The entry has similarity equal to [s]. *)
Definition sim_is (s : Q) (x : Scored) : bool :=
  match similarity x with Fin q => Qeq_bool q s | NaN => false end.

(** A configuration with a negative [maxContextDocuments], a query vector
    and two stored embeddings that both match it. *)
Definition meta0 : Metadata :=
  {| mid := "a"; msource := "a.txt"; mtags := []; mfile_name := None;
     mstorage_path := None |}.
Definition meta1 : Metadata :=
  {| mid := "b"; msource := "b.txt"; mtags := []; mfile_name := None;
     mstorage_path := None |}.
Definition cfg_negative_max : RAGConfig :=
  {| maxContextDocuments := -1; similarityThreshold := 3 # 10;
     embeddingDimension := 2; rateLimitDelayMs := 8000 |}.
Definition cfg_default : RAGConfig :=
  {| maxContextDocuments := 3; similarityThreshold := 3 # 10;
     embeddingDimension := 2; rateLimitDelayMs := 8000 |}.
Definition docs01 : list Document :=
  [ {| did := "a"; dcontent := "alpha"; dmeta := meta0 |};
    {| did := "b"; dcontent := "beta"; dmeta := meta1 |} ].
Definition embs01 : list EmbeddingItem :=
  [ {| etext := "alpha"; embedding := [1; 0]; emeta := meta0 |};
    {| etext := "beta"; embedding := [1; 0]; emeta := meta1 |} ].

End RankOrder.

(** ** Concrete inputs for the query paths *)
Module QueryFixtures.
Import Num Ranker RankOrder MastraQuery.
Open Scope Q_scope.

(** A stored corpus orthogonal to the query vector [0; 1]. *)
Definition embs_x : list EmbeddingItem :=
  [ {| etext := "alpha"; embedding := [1; 0]; emeta := meta0 |} ].

End QueryFixtures.

(** ** Concrete throttler states *)
Module ThrottleFixtures.
Import Throttle.
Open Scope Z_scope.

(** A provider created at 50000 after five calls, the last at 99000. *)
Definition st_full : RateState :=
  {| lastRequestTime := 99000; requestCount := 5; lastResetTime := 50000 |}.

End ThrottleFixtures.


(** ** JavaScript string and array helpers used by the HTTP layer *)
Module JsText.
Import JsString.

(** Characters removed by [String.prototype.trim] and matched by the
    regular expression class [\s], on the ASCII range: tab, line feed,
    vertical tab, form feed, carriage return and space. *)
Definition is_ws (c : ascii) : bool :=
  let n := nat_of_ascii c in (n =? 32)%nat || ((9 <=? n)%nat && (n <=? 13)%nat).

Definition newline : ascii := ascii_of_nat 10.

Fixpoint trimStart (s : string) : string :=
  match s with
  | EmptyString => EmptyString
  | String c t => if is_ws c then trimStart t else s
  end.

Fixpoint trimEnd (s : string) : string :=
  match s with
  | EmptyString => EmptyString
  | String c t =>
      let t' := trimEnd t in
      if is_ws c && String.eqb t' "" then "" else String c t'
  end.

(** [s.trim()] *)
Definition trim (s : string) : string := trimEnd (trimStart s).

(** [s.split(sep)] for a one-character separator; [''.split(sep)] is
    [['']]. *)
Fixpoint split (sep : ascii) (s : string) : list string :=
  match s with
  | EmptyString => [""]
  | String c t =>
      let r := split sep t in
      if Ascii.eqb c sep then "" :: r
      else match r with
           | h :: rs => String c h :: rs
           | [] => [String c ""]
           end
  end.

(** [xs.pop()] of the array returned by [split], which is never empty. *)
Definition pop (xs : list string) : string := last xs "".

(** [s] contains no occurrence of the character [c]. *)
Definition noChar (c : ascii) (s : string) : bool :=
  forallb (fun x => negb (Ascii.eqb x c)) (list_ascii_of_string s).

(** [s.substring(0, n)] *)
Definition substring0 (n : nat) (s : string) : string := String.substring 0 n s.

(** [[...new Set(xs)]]: the values in order of first appearance. *)
Fixpoint setValuesFrom (seen : list string) (xs : list string) : list string :=
  match xs with
  | [] => []
  | x :: rest =>
      if array_includes seen x then setValuesFrom seen rest
      else x :: setValuesFrom (x :: seen) rest
  end.

Definition setValues (xs : list string) : list string := setValuesFrom [] xs.

(** Decimal digits of a natural number ([String(n)] for an integer). *)
Fixpoint digitsFuel (fuel : nat) (n : N) (acc : string) : string :=
  match fuel with
  | O => acc
  | S f =>
      let acc' := String (ascii_of_nat (48 + N.to_nat (N.modulo n 10))) acc in
      if (N.div n 10 =? 0)%N then acc' else digitsFuel f (N.div n 10) acc'
  end.

Definition nstr (n : N) : string :=
  match n with
  | N0 => "0"
  | Npos p => digitsFuel (Pos.size_nat p) n ""
  end.

(** [`${z}`] for an integer [z]. *)
Definition zstr (z : Z) : string :=
  match z with
  | Z0 => "0"
  | Zpos p => nstr (Npos p)
  | Zneg p => "-" ++ nstr (Npos p)
  end.

(** [x.toFixed(f)] for [|x| < 1e21]: the integer [n] nearest to
    [|x| * 10^f] (the larger one on a tie), written with [f] decimals,
    preceded by ["-"] when [x < 0]. *)
Definition toFixed (f : nat) (x : Q) : string :=
  let neg := negb (Qle_bool 0 x) in
  let ax := if neg then Qopp x else x in
  let n := Z.to_N (Qfloor (ax * inject_Z (10 ^ Z.of_nat f) + (1 # 2))) in
  let m := nstr n in
  let m' := if (String.length m <=? f)%nat
            then String.concat "" (repeat "0" (f + 1 - String.length m)) ++ m
            else m in
  let k := (String.length m' - f)%nat in
  (if neg then "-" else "") ++ String.substring 0 k m' ++
  (match f with O => "" | _ => "." ++ String.substring k f m' end).

End JsText.

(** ** The generation call of the Mastra agent (part_001) *)
Module MastraGenerate.
Import JsString JsText MastraQuery.

(** One element of [data.choices]: [message.content] and [finish_reason]. *)
Record ChatChoice := {
  ccontent : string;
  cfinish_reason : string
}.

(** The response of [fetch(`${baseURL}/chat/completions`, ...)]:
    [response.ok], [status], [statusText] and the outcome of
    [response.json()] ([Err] when it rejects), whose [choices] field is
    [None] when missing. *)
Record ChatHttpResponse := {
  hok : bool;
  hstatus : Z;
  hstatusText : string;
  hbody : Result (option (list ChatChoice))
}.

(** The parts of [doGenerate]'s return value that are read later:
    [{text, usage, finishReason}]; the object has no tool calls. *)
Record GenerateResult := {
  gtext : string;
  gfinishReason : string
}.

(** [SambaNovaProvider.doGenerate(args)] after [enforceRateLimit()] (which
    only waits): [fetchRes] is the outcome of the [fetch]; [Err] when the
    fetch rejects. The request body carries [model], [messages],
    [max_tokens], [temperature] and [stream], and no tools. *)
Definition doGenerate (fetchRes : Result ChatHttpResponse) : Result GenerateResult :=
  match fetchRes with
  | Err m => Err m
  | Ok response =>
      if negb (hok response) then
        Err ("SambaNova API error: " ++ zstr (hstatus response) ++ " " ++
             hstatusText response)
      else
        match hbody response with
        | Err m => Err m
        | Ok None => Err "Cannot read properties of undefined (reading '0')"
        | Ok (Some []) => Err "Cannot read properties of undefined (reading 'message')"
        | Ok (Some (c :: _)) =>
            Ok {| gtext := ccontent c; gfinishReason := cfinish_reason c |}
        end
  end.

(** [this.agent.generate([{role: 'user', content: query}], {maxSteps: 3})]
    with [customSambaModel], whose [doGenerate] is the provider's: the
    model's reply carries no tool calls, so the first step ends the run
    with the reply's text, and an error thrown by [doGenerate] rejects
    the run. *)
Definition agent_generate (genRes : Result GenerateResult) : Result string :=
  match genRes with
  | Ok r => Ok (gtext r)
  | Err m => Err m
  end.

(** The [/query] handler from the agent call on: [mastraRagSystem.query]
    and the packaging of its result. *)
Definition query_path (selectedCount : nat) (fetchRes : Result ChatHttpResponse)
    (elapsed : Z) : ApiQueryResponse :=
  query_handler selectedCount (agent_generate (doGenerate fetchRes)) elapsed.

End MastraGenerate.

(** ** File type check of [/upload] and text extraction of [uploadFile] *)
Module Upload.
Import JsString JsText.

(** [CONFIG.UPLOAD.ALLOWED_MIME_TYPES] *)
Definition ALLOWED_MIME_TYPES : list string :=
  ["text/plain"; "text/markdown"; "text/csv"; "application/csv";
   "application/pdf"; "application/msword";
   "application/vnd.openxmlformats-officedocument.wordprocessingml.document";
   "application/octet-stream"].

(** [CONFIG.UPLOAD.ALLOWED_EXTENSIONS] *)
Definition ALLOWED_EXTENSIONS : list string :=
  ["txt"; "md"; "csv"; "pdf"; "doc"; "docx"].

(** [filename.toLowerCase().split('.').pop()] *)
Definition extension (filename : string) : string :=
  pop (split "." (toLowerCase filename)).

(** The file type check of the [/upload] handler; [filename] is
    [data.filename], [None] when it is missing. [Err] is the 400 reply. *)
Definition checkFileType (filename : option string) (mimetype : string)
    : Result unit :=
  let fn := match filename with Some f => f | None => "" end in
  let ext := extension fn in
  let isMimeTypeAllowed := array_includes ALLOWED_MIME_TYPES mimetype in
  let isExtensionAllowed := array_includes ALLOWED_EXTENSIONS ext in
  if negb isMimeTypeAllowed && negb isExtensionAllowed then
    Err ("File type not supported. Received: " ++ mimetype ++ " (" ++ ext ++
         "). Allowed types: " ++ join ", " ALLOWED_MIME_TYPES ++
         " or extensions: " ++ join ", " ALLOWED_EXTENSIONS)
  else Ok tt.

(** [csvContent.split('\n').filter(line => line.trim())] *)
Definition csvLines (csvContent : string) : list string :=
  filter (fun line => negb (String.eqb (trim line) "")) (split newline csvContent).

(** [lines[0]?.split(',') || []] *)
Definition csvHeaders (lines : list string) : list string :=
  match lines with
  | [] => []
  | l0 :: _ => split "," l0
  end.

Definition nls : string := String newline EmptyString.

(** The text built for a CSV file (both CSV branches of [uploadFile]). *)
Definition csvSummary (originalname csvContent : string) : string :=
  let lines := csvLines csvContent in
  let headers := csvHeaders lines in
  "CSV Document: " ++ originalname ++ nls ++ nls ++
  "This is a CSV file with the following structure:" ++ nls ++
  "Headers: " ++ join ", " headers ++ nls ++
  "Total Rows: " ++ zstr (Z.of_nat (length lines) - 1) ++ " data rows" ++ nls ++ nls ++
  "COMPLETE CSV DATA:" ++ nls ++ csvContent ++ nls ++ nls ++
  "This CSV contains financial data that can be analyzed for questions about companies, revenue, profit, employees, industries, etc.".

(** Text extraction of [uploadFile]: [bufferText] is
    [file.buffer.toString('utf-8')], [size] is [file.size] and [pdfRes] the
    outcome of [pdfParse(file.buffer)], used only on the PDF branch. *)
Definition extractContent (mimetype originalname bufferText : string) (size : Z)
    (pdfRes : Result string) : Result string :=
  let filename := originalname in
  let ext := extension filename in
  if String.eqb mimetype "text/plain" || String.eqb mimetype "text/markdown" then
    Ok bufferText
  else if String.eqb mimetype "text/csv" || String.eqb mimetype "application/csv" ||
          String.eqb ext "csv" then
    Ok (csvSummary originalname bufferText)
  else if String.eqb mimetype "application/pdf" then
    pdfRes
  else if String.eqb ext "csv" || includes (toLowerCase filename) "csv" then
    Ok (csvSummary originalname bufferText)
  else
    Ok ("Document: " ++ originalname ++ nls ++ "File Type: " ++ mimetype ++ nls ++
        "Size: " ++ zstr size ++ " bytes").

End Upload.

(** ** Follow-up question parsing of the recommendation tool *)
Module Recommend.
Import JsText.

Definition is_digit (c : ascii) : bool :=
  let n := nat_of_ascii c in (48 <=? n)%nat && (n <=? 57)%nat.

(** Leading decimal digits: their number and the rest of the string. *)
Fixpoint spanDigits (s : string) : nat * string :=
  match s with
  | String c t => if is_digit c then let '(k, r) := spanDigits t in (S k, r) else (O, s)
  | EmptyString => (O, EmptyString)
  end.

(** [line.replace(/^\d+\.\s*/, '')] *)
Definition stripListNumber (line : string) : string :=
  match spanDigits line with
  | (S _, String c r) => if Ascii.eqb c "." then trimStart r else line
  | _ => line
  end.

(** [result.text.split('\n').filter(line => line.trim().length > 0)
    .map(line => line.replace(/^\d+\.\s*/, '').trim()).slice(0, 5)] *)
Definition parseRecommendations (text : string) : list string :=
  firstn 5 (map (fun line => trim (stripListNumber line))
              (filter (fun line => negb (String.eqb (trim line) ""))
                 (split newline text))).

(** [recommendationTool.execute]: [genRes] is the outcome of
    [sambaProvider.doGenerate]; a failure yields no recommendations. *)
Definition recommendation_execute (genRes : Result string) : list string :=
  match genRes with
  | Ok text => parseRecommendations text
  | Err _ => []
  end.

End Recommend.

(** ** Store operations as the HTTP routes use them *)
Module Store.
Import Ranker Memory.

(** A PostgREST error: [code] and [message]. *)
Record PgError := {
  code : string;
  pmessage : string
}.

(** [getDocumentById(id)] given the [{ data, error }] of the
    [.select('*').eq('id', id).single()] request; [PGRST116] is "no row". *)
Definition getDocumentById (data : option DbRow) (error : option PgError)
    : Result (option DbRow) :=
  match error with
  | Some e =>
      if String.eqb (code e) "PGRST116" then Ok None
      else Err ("Failed to fetch document: " ++ pmessage e)
  | None => Ok data
  end.

(** Status code, [success] and the [message] or [error] text of a reply. *)
Record ApiReply := {
  status : Z;
  rsuccess : bool;
  rtext : string
}.

(** The [DELETE /documents/:id] handler after [ragSystem.deleteDocument(id)]. *)
Definition deleteRoute (id : string) (r : Result bool) : ApiReply :=
  match r with
  | Ok true => {| status := 200; rsuccess := true;
                  rtext := "Document " ++ id ++ " deleted successfully" |}
  | Ok false => {| status := 404; rsuccess := false; rtext := "Document not found" |}
  | Err m => {| status := 500; rsuccess := false; rtext := m |}
  end.

(** [getStats()] (the [storageType] label omitted). *)
Record Stats := {
  totalDocuments : nat;
  totalEmbeddings : nat
}.

Definition getStats (st : RagState) : Stats :=
  {| totalDocuments := length (documents st);
     totalEmbeddings := length (embeddings st) |}.

(** An element of [DocumentRequest.documents]. *)
Record ReqDoc := {
  rq_id : string;
  rq_content : string;
  rq_source : string;
  rq_tags : option (list string)
}.

(** The [formattedDocs] of [POST /documents]. *)
Definition formatDoc (doc : ReqDoc) : Document :=
  {| did := rq_id doc; dcontent := rq_content doc;
     dmeta := {| mid := rq_id doc; msource := rq_source doc;
                 mtags := match rq_tags doc with Some t => t | None => [] end;
                 mfile_name := None; mstorage_path := None |} |}.

(** [POST /documents]: on success [(documentsAdded, totalDocuments)]. *)
Definition addDocumentsRoute (st : RagState) (reqs : list ReqDoc)
    (embedRes : Result (list (list Q)))
    (insertRes : Result (option (list string))) : RagState * Result (nat * nat) :=
  let '(st', r) := addDocuments st (map formatDoc reqs) embedRes insertRes in
  match r with
  | Ok _ => (st', Ok (length reqs, totalDocuments (getStats st')))
  | Err m => (st', Err m)
  end.

(** The operations that change the in-memory lists, with the outcomes of
    their external calls. *)
Inductive Op :=
| OpLoad (res : Result (option (list DbRow)))
| OpUpload (file : UploadedFile) (tags : list string) (stamp : string)
    (uploadRes : Result unit) (contentRes : Result string)
    (embedRes : Result (list (list Q))) (insertRes : Result string)
| OpAddRoute (reqs : list ReqDoc) (embedRes : Result (list (list Q)))
    (insertRes : Result (option (list string)))
| OpDelete (id : string) (getRes : Result (option DbRow)) (removeRes : Result unit)
    (deleteRes : Result unit)
| OpClear (res : Result unit).

Definition applyOp (st : RagState) (op : Op) : RagState :=
  match op with
  | OpLoad res => loadDocumentsFromSupabase res st
  | OpUpload file tags stamp u c e i => fst (uploadFile st file tags stamp u c e i)
  | OpAddRoute reqs e i => fst (addDocumentsRoute st reqs e i)
  | OpDelete id g r d => fst (deleteDocument st id g r d)
  | OpClear res => fst (clearDocuments st res)
  end.

Definition runOps (st : RagState) (ops : list Op) : RagState :=
  fold_left applyOp ops st.

(** The embedding service returns one vector per text sent. *)
Definition embedContract (op : Op) : Prop :=
  match op with
  | OpAddRoute reqs embedRes _ =>
      forall es, embedRes = Ok es -> length es = length reqs
  | _ => True
  end.

End Store.

(** ** Listing and statistics replies *)
Module Views.
Import JsString JsText Selector.

(** [getDetailedStats()] on success ([totalSizeMB] is a string). *)
Record RecentDoc := {
  rd_id : string;
  rd_fileName : string;
  rd_source : string;
  rd_createdAt : string
}.

Record DetailedStats := {
  documentCount : nat;
  totalChunks : nat;
  totalSize : Z;
  totalSizeMB : string;
  fileTypes : list string;
  recentDocuments : list RecentDoc
}.

(** [getDetailedStats()]: [fetch] is the outcome of [getAllDocuments()];
    on failure the reply is [getStats()]. *)
Definition getDetailedStats (fetch : Result (list SupabaseDocument))
    (basic : Store.Stats) : DetailedStats + Store.Stats :=
  match fetch with
  | Err _ => inr basic
  | Ok docs =>
      let size := fold_left (fun sum doc => (sum + file_size doc)%Z) docs 0%Z in
      inl {| documentCount := length docs; totalChunks := length docs;
             totalSize := size;
             totalSizeMB := toFixed 2 (inject_Z size / 1024 / 1024);
             fileTypes := setValues (map file_type docs);
             recentDocuments :=
               map (fun doc => {| rd_id := id doc; rd_fileName := file_name doc;
                                  rd_source := source doc;
                                  rd_createdAt := created_at doc |})
                   (firstn 5 docs) |}
  end.

(** [content_info.preview] of [GET /view]. *)
Definition viewPreview (content : string) : string :=
  substring0 100 content ++
  (if (100 <? String.length content)%nat then "..." else "").

(** [data.summary] of [GET /view]. *)
Record ViewSummary := {
  total_documents : nat;
  total_size_kb : Q;
  total_size_mb : Q;
  file_types : list string;
  all_tags : list string
}.

(** [parseFloat(x.toFixed(f))] for [x >= 0]. *)
Definition roundTo (f : nat) (x : Q) : Q :=
  Qmake (Qfloor (x * inject_Z (10 ^ Z.of_nat f) + (1 # 2))) (Pos.of_nat (10 ^ f)).

Definition viewSummary (docs : list SupabaseDocument) : ViewSummary :=
  let totalSize := fold_left (fun sum doc => (sum + file_size doc)%Z) docs 0%Z in
  {| total_documents := length docs;
     total_size_kb := roundTo 1 (inject_Z totalSize / 1024);
     total_size_mb := roundTo 2 (inject_Z totalSize / 1024 / 1024);
     file_types := setValues (map file_type docs);
     all_tags := setValues (flat_map tags docs) |}.

(** [contentPreview] of [GET /documents]. *)
Definition listPreview (content : string) : string :=
  substring0 150 content ++ "...".

End Views.

(** ** The prompt the [/query] handler sends to the agent *)
Module Prompt.
Import JsString JsText Selector.

(** An element of [documentContext]. *)
Record DocContext := {
  cid : string;
  cname : string;
  csource : string;
  ccontent : string;
  ctags : list string;
  csize : Z
}.

Definition documentContext (doc : SupabaseDocument) : DocContext :=
  {| cid := id doc; cname := file_name doc; csource := source doc;
     ccontent := substring0 1000 (content doc); ctags := tags doc;
     csize := file_size doc |}.

(** [userResponse ? ... : ...]: absent and [''] are falsy. *)
Definition strTruthy (s : option string) : bool :=
  match s with Some u => negb (String.eqb u "") | None => false end.

Definition strOr (s : option string) : string :=
  match s with Some u => u | None => "" end.

(** [enhancedPrompt] (Step 3 of the [/query] handler). *)
Definition enhancedPrompt (selectedDocuments : list SupabaseDocument)
    (prompt : string) (userResponse : option string) : string :=
  let dc := map documentContext selectedDocuments in
  match selectedDocuments with
  | _ :: _ =>
      "Document Data:" ++ Upload.nls ++
      join (Upload.nls ++ Upload.nls)
        (map (fun doc => cname doc ++ ":" ++ Upload.nls ++ ccontent doc) dc) ++
      Upload.nls ++ Upload.nls ++ "Question: " ++ prompt ++ Upload.nls ++ Upload.nls ++
      (if strTruthy userResponse
       then "Output Format: " ++ strOr userResponse ++ Upload.nls ++ Upload.nls
       else "") ++
      "Answer directly using the data above." ++
      (if strTruthy userResponse then " Use the exact format requested." else "") ++
      " Do not ask follow-up questions or provide explanations beyond answering the question."
  | [] =>
      if strTruthy userResponse
      then "Question: " ++ prompt ++ Upload.nls ++ Upload.nls ++ "Output Format: " ++
           strOr userResponse ++ Upload.nls ++ Upload.nls ++
           "Provide a direct answer in the requested format."
      else prompt
  end.

(** A document matches one of the criteria the request supplies. *)
Definition matchesSupplied (req : EnhancedQueryRequest) (doc : SupabaseDocument) : bool :=
  (nonEmpty (documentIds req) &&
     array_includes (list_or_nil (documentIds req)) (id doc)) ||
  (nonEmpty (documentNames req) && nameMatches (list_or_nil (documentNames req)) doc) ||
  (nonEmpty (qtags req) && tagMatches (list_or_nil (qtags req)) doc).

End Prompt.

(** ** The global error handler of the Fastify app *)
Module ServerErrors.

(** The fields of a thrown error that [setErrorHandler] inspects. *)
Record FastifyError := {
  ecode : option string;
  validation : bool;
  statusCode : option Z;
  emessage : string
}.

Definition errorHandler (error : FastifyError) : Store.ApiReply :=
  if match ecode error with Some c => String.eqb c "FST_REQ_FILE_TOO_LARGE" | None => false end
  then {| Store.status := 400; Store.rsuccess := false;
          Store.rtext := "File too large. Maximum size is 10MB." |}
  else if validation error
  then {| Store.status := 400; Store.rsuccess := false;
          Store.rtext := "Validation error: " ++ emessage error |}
  else if match statusCode error with Some s => Z.eqb s 429 | None => false end
  then {| Store.status := 429; Store.rsuccess := false;
          Store.rtext := "Too many requests. Please try again later." |}
  else {| Store.status := 500; Store.rsuccess := false;
          Store.rtext := "Internal server error" |}.

End ServerErrors.

(** ** Inputs for the store *)
Module MemoryFixtures.
Import Ranker Memory.

Definition meta_note : Metadata :=
  {| mid := "doc_1"; msource := "notes.txt"; mtags := ["financial"];
     mfile_name := None; mstorage_path := None |}.

Definition doc_note : Document :=
  {| did := "doc_1"; dcontent := "Revenue grew"; dmeta := meta_note |}.

End MemoryFixtures.


(** ** Inputs for the routes *)
Module StoreFixtures.
Import Ranker Memory Store.

Definition file_a : UploadedFile :=
  {| originalname := "a.txt"; mimetype := "text/plain"; size := 2 |}.

Definition meta_memo : Metadata :=
  {| mid := "doc_2"; msource := "memo.md"; mtags := []; mfile_name := Some "memo.md";
     mstorage_path := Some "documents/1-memo.md" |}.

(** Two stored documents with their embedding entries. *)
Definition st_note : RagState :=
  {| documents := [MemoryFixtures.doc_note;
                   {| did := "doc_2"; dcontent := "Costs fell"; dmeta := meta_memo |}];
     embeddings := [{| etext := "Revenue grew"; embedding := [1%Q; 0%Q];
                       emeta := MemoryFixtures.meta_note |};
                    {| etext := "Costs fell"; embedding := [0%Q; 1%Q];
                       emeta := meta_memo |}] |}.

Definition row_note : DbRow :=
  {| rid := "doc_1"; rcontent := "Revenue grew"; rfile_name := "notes.txt";
     rsource := "notes.txt"; rtags := Some ["financial"]; rembedding := [1%Q; 0%Q];
     rstorage_path := "" |}.

Definition req_a : ReqDoc :=
  {| rq_id := "r1"; rq_content := "Profit rose"; rq_source := "api"; rq_tags := None |}.

(** Upload a file, add one document through the route, delete the first
    document, then a clear that fails. *)
Definition ops_sample : list Op :=
  [OpUpload file_a ["t"] "1700000000000" (Ok tt) (Ok "hi") (Ok [[1%Q]]) (Ok "uuid-7");
   OpAddRoute [req_a] (Ok [[1%Q]]) (Ok (Some ["uuid-8"]));
   OpDelete "uuid-7" (Ok (Some row_note)) (Ok tt) (Ok tt);
   OpClear (Err "timeout")].

End StoreFixtures.

(* ================================================================== *)
(** * Properties *)

Module SelectorFacts.
Import JsString Selector SelectorFixtures.

(** C1 (code defect): with [documentNames = ["income"]] and
    [tags = ["financial"]] over a single document tagged "financial" whose
    name does not contain "income", the name filter selects nothing, the
    tag step then finds [selectedDocuments] empty and replaces it by the
    tag matches, so the document is selected although the intersection of
    the two filters is empty. *)
Lemma C1_name_miss_widened_by_tags :
  selectDocuments req_names_tags [doc_income] =
    ([doc_income], ["Document Names: income"; "Tags: financial"]) /\
  nameMatches ["income"] doc_income = false.
Proof. split; reflexivity. Qed.

(** C8: a request with no documentIds, no documentNames, no tags and
    [useAllDocuments] absent or false selects the whole collection and
    records the single description "All available documents". *)
Theorem C8_no_criteria_selects_all (req : EnhancedQueryRequest)
    (allDocs : list SupabaseDocument) :
  documentIds req = None -> documentNames req = None -> qtags req = None ->
  truthy (useAllDocuments req) = false ->
  selectDocuments req allDocs = (allDocs, ["All available documents"]).
Proof.
  intros Hi Hn Ht Hu. unfold selectDocuments.
  rewrite Hi, Hn, Ht, Hu. reflexivity.
Qed.

Lemma C8_no_criteria_selects_all_witness :
  selectDocuments req_plain [doc_income] =
    ([doc_income], ["All available documents"]).
Proof.
  apply (C8_no_criteria_selects_all req_plain [doc_income]);
    reflexivity.
Defined.

(** C10: when each of documentIds, documentNames and tags is absent or an
    empty array, at least one of them is an empty array, and
    [useAllDocuments] is not true, the fallback to all documents is not
    taken: nothing is selected and no description is recorded. *)
Theorem C10_empty_array_blocks_fallback (req : EnhancedQueryRequest)
    (allDocs : list SupabaseDocument) :
  absent_or_empty (documentIds req) ->
  absent_or_empty (documentNames req) ->
  absent_or_empty (qtags req) ->
  (documentIds req = Some [] \/ documentNames req = Some [] \/
   qtags req = Some []) ->
  truthy (useAllDocuments req) = false ->
  selectDocuments req allDocs = ([], []).
Proof.
  unfold absent_or_empty.
  intros Hi Hn Ht Hsome Hu. unfold selectDocuments.
  destruct Hi as [Hi|Hi]; destruct Hn as [Hn|Hn]; destruct Ht as [Ht|Ht];
    rewrite Hi, Hn, Ht, Hu; simpl; try reflexivity;
    destruct Hsome as [H|[H|H]]; congruence.
Qed.

Lemma C10_empty_array_blocks_fallback_witness :
  selectDocuments req_empty_ids [doc_income] = ([], []).
Proof.
  apply (C10_empty_array_blocks_fallback req_empty_ids [doc_income]);
    unfold absent_or_empty; simpl; auto.
Defined.

End SelectorFacts.

Module RankerFacts.
Import Num Ranker RankOrder.
Open Scope Q_scope.

Lemma sum_squares_acc_zero (a : list Q) (s0 : Q) :
  Forall (fun x => x == 0) a -> s0 == 0 ->
  exists s, fold_left (fun s ai => add s (Fin (ai * ai))) a (Fin s0) = Fin s
            /\ s == 0.
Proof.
  revert s0. induction a as [|x a IH]; intros s0 Ha Hs0; simpl.
  - exists s0. split; [reflexivity | exact Hs0].
  - inversion Ha as [|? ? Hx Ha']; subst.
    apply IH; [exact Ha' |]. rewrite Hs0, Hx. reflexivity.
Qed.

Lemma sqrt_of_zero (s : Q) : s == 0 -> is_zero (sqrt (Fin s)) = true.
Proof.
  destruct s as [n d]. unfold Qeq. simpl. intro H.
  assert (n = 0%Z) by lia. subst n. reflexivity.
Qed.

(** C7: for equal-length vectors of which at least one is all-zero,
    [cosineSimilarity] returns the finite value [0] (never [NaN]). *)
Theorem C7_zero_vector_similarity (a b : list Q) :
  length a = length b ->
  Forall (fun x => x == 0) a \/ Forall (fun x => x == 0) b ->
  cosineSimilarity a b = Fin 0.
Proof.
  intros _ [Ha|Hb]; unfold cosineSimilarity.
  - destruct (sum_squares_acc_zero a 0 Ha (Qeq_refl 0)) as [s [Hs Hs0]].
    unfold sum_squares. rewrite Hs, (sqrt_of_zero s Hs0). reflexivity.
  - destruct (sum_squares_acc_zero b 0 Hb (Qeq_refl 0)) as [s [Hs Hs0]].
    unfold sum_squares at 2. rewrite Hs, (sqrt_of_zero s Hs0), orb_true_r.
    reflexivity.
Qed.

Lemma C7_zero_vector_similarity_witness :
  cosineSimilarity [0; 0] [3; 4] = Fin 0.
Proof.
  apply C7_zero_vector_similarity.
  - reflexivity.
  - left. repeat constructor.
Defined.

(** Sorting and filtering lemmas for the ranker. *)

Lemma compare_fin (x y : Scored) :
  fin x -> fin y -> compare x y = val y - val x.
Proof.
  unfold fin, compare, val.
  destruct (similarity x), (similarity y); simpl; congruence.
Qed.

Lemma desc_val (x y : Scored) :
  fin x -> fin y -> (desc x y <-> val y <= val x).
Proof.
  unfold fin, desc, val.
  destruct (similarity x), (similarity y); simpl; try discriminate.
  intros _ _. apply Qle_bool_iff.
Qed.

Lemma sim_is_val (s : Q) (x : Scored) :
  fin x -> (sim_is s x = true <-> val x == s).
Proof.
  unfold fin, sim_is, val. destruct (similarity x); simpl; try discriminate.
  intros _. apply Qeq_bool_iff.
Qed.

Lemma insert_cond (x y : Scored) :
  fin x -> fin y ->
  (negb (Qle_bool (compare x y) 0) = true <-> val x < val y).
Proof.
  intros Hx Hy. rewrite compare_fin by assumption.
  rewrite negb_true_iff. split; intro H.
  - destruct (Qlt_le_dec (val x) (val y)) as [Hl|Hl]; [exact Hl|].
    assert (Qle_bool (val y - val x) 0 = true) by (apply Qle_bool_iff; lra).
    congruence.
  - destruct (Qle_bool (val y - val x) 0) eqn:E; [|reflexivity].
    apply Qle_bool_iff in E. lra.
Qed.

Lemma In_insert (y x : Scored) (l : list Scored) :
  In y (insert x l) <-> y = x \/ In y l.
Proof.
  induction l as [|z zs IH]; simpl.
  - split; [intros [H|H]; [left; congruence | contradiction]
           |intros [H|H]; [left; congruence | contradiction]].
  - destruct (negb (Qle_bool (compare x z) 0)); simpl; rewrite ?IH;
      intuition congruence.
Qed.

Lemma In_sort (y : Scored) (l : list Scored) : In y (sort l) <-> In y l.
Proof.
  induction l as [|x xs IH]; simpl; [tauto|].
  rewrite In_insert, IH. intuition.
Qed.

Lemma Forall_sort (P : Scored -> Prop) (l : list Scored) :
  Forall P l -> Forall P (sort l).
Proof.
  rewrite !Forall_forall. intros H y Hy. apply H, In_sort, Hy.
Qed.

Lemma HdRel_insert (x y : Scored) (l : list Scored) :
  HdRel desc y l -> desc y x -> HdRel desc y (insert x l).
Proof.
  intros Hd Hyx. destruct l as [|z zs]; simpl.
  - constructor. exact Hyx.
  - destruct (negb (Qle_bool (compare x z) 0)); constructor.
    + inversion Hd; assumption.
    + exact Hyx.
Qed.

Lemma Sorted_insert (x : Scored) (l : list Scored) :
  fin x -> Forall fin l -> Sorted desc l -> Sorted desc (insert x l).
Proof.
  induction l as [|y ys IH]; intros Hx Hl Hs; simpl.
  - repeat constructor.
  - inversion Hl as [|? ? Hy Hys]; subst.
    apply Sorted_inv in Hs as [Hs Hd].
    destruct (negb (Qle_bool (compare x y) 0)) eqn:E.
    + apply insert_cond in E; [|assumption..].
      constructor; [apply IH; assumption|].
      apply HdRel_insert; [exact Hd|].
      apply desc_val; [assumption..|]. lra.
    + constructor; [constructor; assumption|].
      constructor. apply desc_val; [assumption..|].
      destruct (Qlt_le_dec (val x) (val y)) as [Hl'|Hl']; [|exact Hl'].
      apply (proj2 (insert_cond x y Hx Hy)) in Hl'. congruence.
Qed.

Lemma Sorted_sort (l : list Scored) : Forall fin l -> Sorted desc (sort l).
Proof.
  induction l as [|x xs IH]; intro Hl; simpl; [constructor|].
  inversion Hl as [|? ? Hx Hxs]; subst.
  apply Sorted_insert; [exact Hx | apply Forall_sort, Hxs | apply IH, Hxs].
Qed.

Lemma filter_insert_other (s : Q) (x : Scored) (l : list Scored) :
  sim_is s x = false ->
  filter (sim_is s) (insert x l) = filter (sim_is s) l.
Proof.
  intro Hx. induction l as [|y ys IH]; simpl.
  - rewrite Hx. reflexivity.
  - destruct (negb (Qle_bool (compare x y) 0)); simpl.
    + destruct (sim_is s y); rewrite IH; reflexivity.
    + rewrite Hx. reflexivity.
Qed.

Lemma filter_insert_same (s : Q) (x : Scored) (l : list Scored) :
  fin x -> Forall fin l -> sim_is s x = true ->
  filter (sim_is s) (insert x l) = x :: filter (sim_is s) l.
Proof.
  intros Hx Hl Hsx. induction l as [|y ys IH]; simpl.
  - rewrite Hsx. reflexivity.
  - inversion Hl as [|? ? Hy Hys]; subst.
    destruct (negb (Qle_bool (compare x y) 0)) eqn:E; simpl.
    + apply insert_cond in E; [|assumption..].
      destruct (sim_is s y) eqn:Ey.
      * apply sim_is_val in Ey; [|assumption].
        apply sim_is_val in Hsx; [|assumption]. lra.
      * apply IH, Hys.
    + rewrite Hsx. reflexivity.
Qed.

(** The sort is stable: restricted to any one similarity value it keeps
    the input order. *)
Lemma filter_sort (s : Q) (l : list Scored) :
  Forall fin l -> filter (sim_is s) (sort l) = filter (sim_is s) l.
Proof.
  induction l as [|x xs IH]; intro Hl; simpl; [reflexivity|].
  inversion Hl as [|? ? Hx Hxs]; subst.
  destruct (sim_is s x) eqn:E.
  - rewrite filter_insert_same by (apply Forall_sort || idtac; assumption).
    rewrite IH by assumption. reflexivity.
  - rewrite filter_insert_other by assumption. apply IH, Hxs.
Qed.

Lemma filter_firstn_prefix {A} (P : A -> bool) (n : nat) (l : list A) :
  exists rest, (filter P (firstn n l) ++ rest)%list = filter P l.
Proof.
  revert l. induction n as [|n IH]; intro l.
  - exists (filter P l). reflexivity.
  - destruct l as [|x xs]; [exists []; reflexivity|].
    destruct (IH xs) as [rest Hr]. exists rest. simpl.
    destruct (P x); simpl; rewrite Hr; reflexivity.
Qed.

Lemma Sorted_firstn {A} (R : A -> A -> Prop) (n : nat) (l : list A) :
  Sorted R l -> Sorted R (firstn n l).
Proof.
  revert n. induction l as [|x xs IH]; intros n Hs;
    (destruct n; simpl; [constructor | ]); [constructor |].
  apply Sorted_inv in Hs as [Hs Hd]. constructor; [apply IH, Hs|].
  destruct xs as [|y ys], n; simpl; constructor.
  inversion Hd; assumption.
Qed.

Lemma fin_filter_above (config : RAGConfig) (l : list Scored) :
  Forall fin (filter (aboveThreshold config) l).
Proof.
  apply Forall_forall. intros x Hx. apply filter_In in Hx as [_ Hx].
  unfold aboveThreshold, fin in *. destruct (similarity x); [reflexivity|].
  discriminate.
Qed.

(** C4 (as amended): for a non-negative [maxContextDocuments], the ranked
    list is sorted by descending similarity, is no longer than
    [maxContextDocuments], holds only entries with similarity at or above
    the threshold, and lists the entries of equal similarity in corpus
    order (a prefix of those of the thresholded corpus). *)
Theorem C4_rank_sorted_capped_stable (config : RAGConfig)
    (queryEmbedding : list Q) (documents : list Document)
    (embeddings : list EmbeddingItem) :
  (0 <= maxContextDocuments config)%Z ->
  Sorted desc (relevantDocs config queryEmbedding documents embeddings) /\
  (Z.of_nat (length (relevantDocs config queryEmbedding documents embeddings))
     <= maxContextDocuments config)%Z /\
  Forall (fun x => ge (similarity x) (similarityThreshold config) = true)
    (relevantDocs config queryEmbedding documents embeddings) /\
  (forall s : Q, exists rest,
     (filter (sim_is s) (relevantDocs config queryEmbedding documents embeddings)
        ++ rest)%list =
     filter (sim_is s)
       (filter (aboveThreshold config)
          (similarities queryEmbedding documents embeddings))).
Proof.
  intro Hmax. unfold relevantDocs, rank, slice0.
  replace (maxContextDocuments config <? 0)%Z with false
    by (symmetry; apply Z.ltb_ge; lia).
  set (l := filter (aboveThreshold config)
              (similarities queryEmbedding documents embeddings)).
  set (n := Z.to_nat (maxContextDocuments config)).
  assert (Hfin : Forall fin l) by apply fin_filter_above.
  split; [|split; [|split]].
  - apply Sorted_firstn, Sorted_sort, Hfin.
  - pose proof (firstn_le_length n (sort l)) as Hle.
    assert (Hn : Z.of_nat n = maxContextDocuments config)
      by (unfold n; apply Z2Nat.id; exact Hmax).
    lia.
  - apply Forall_forall. intros x Hx.
    assert (Hin : In x (sort l)).
    { rewrite <- (firstn_skipn n (sort l)). apply in_or_app. left. exact Hx. }
    apply (proj1 (In_sort x l)) in Hin. unfold l in Hin.
    apply filter_In in Hin as [_ Hin].
    exact Hin.
  - intro s. destruct (filter_firstn_prefix (sim_is s) n (sort l)) as [rest Hr].
    exists rest. rewrite Hr. apply filter_sort, Hfin.
Qed.

Lemma C4_rank_sorted_capped_stable_witness :
  (0 <= maxContextDocuments cfg_default)%Z /\
  Sorted desc (relevantDocs cfg_default [1%Q; 0%Q] docs01 embs01).
Proof.
  split; [vm_compute; discriminate|].
  apply (proj1 (C4_rank_sorted_capped_stable cfg_default [1%Q; 0%Q] docs01 embs01
                  ltac:(vm_compute; discriminate))).
Defined.

(** C4 fails for a negative [maxContextDocuments]: [slice(0, -1)] keeps
    all but the last match, so one entry is returned although the cap is
    [-1]. *)
Lemma C4_negative_cap_counterexample :
  length (relevantDocs cfg_negative_max [1%Q; 0%Q] docs01 embs01) = 1%nat /\
  ~ (Z.of_nat (length (relevantDocs cfg_negative_max [1%Q; 0%Q] docs01 embs01))
       <= maxContextDocuments cfg_negative_max)%Z.
Proof.
  split; [vm_compute; reflexivity|].
  vm_compute. intro H. apply H. reflexivity.
Qed.

End RankerFacts.

Module QueryFacts.
Import Num Ranker RankOrder RagQuery MastraQuery QueryFixtures.
Open Scope Q_scope.

Lemma filter_similarities_below (config : RAGConfig) (qv : list Q)
    (documents : list Document) (embeddings : list EmbeddingItem) :
  Forall (fun e => ge (cosineSimilarity qv (embedding e))
                      (similarityThreshold config) = false) embeddings ->
  filter (aboveThreshold config) (similarities qv documents embeddings) = [].
Proof.
  induction embeddings as [|e es IH]; intro Hall; simpl; [reflexivity|].
  inversion Hall as [|? ? He Hes]; subst.
  unfold aboveThreshold at 1. simpl. rewrite He. apply IH, Hes.
Qed.

Lemma rank_nil (config : RAGConfig) (sims : list Scored) :
  filter (aboveThreshold config) sims = [] -> rank config sims = [].
Proof.
  intro H. unfold rank, slice0. rewrite H. simpl.
  destruct (maxContextDocuments config <? 0)%Z; destruct (Z.to_nat _); reflexivity.
Qed.

(** C6: when the query embedding succeeds and no stored embedding reaches
    the similarity threshold (in particular when nothing is stored),
    [query] makes no chat request and returns the "no relevant
    information" result with empty context and confidence 0. *)
Theorem C6_no_match_no_generation (config : RAGConfig)
    (documents : list Document) (embeddings : list EmbeddingItem)
    (prompt : string) (queryEmbeddings : list (list Q))
    (chatRes : Result string) (elapsed : Z) :
  (embeddings = [] \/
   exists qv rest, queryEmbeddings = qv :: rest /\
     Forall (fun e => ge (cosineSimilarity qv (embedding e))
                         (similarityThreshold config) = false) embeddings) ->
  query config documents embeddings prompt (Ok queryEmbeddings) chatRes elapsed
    = ([CallEmbeddings [prompt]], Ok (noInfoResult elapsed)).
Proof.
  intros [He | [qv [rest [Hq Hall]]]].
  - subst embeddings. unfold query, scoreAll. cbn -[rank].
    rewrite rank_nil by reflexivity. reflexivity.
  - subst queryEmbeddings. unfold query, scoreAll.
    destruct embeddings as [|e es]; cbn -[rank similarities].
    + rewrite rank_nil by reflexivity. reflexivity.
    + rewrite rank_nil by (apply filter_similarities_below, Hall).
      reflexivity.
Qed.

Lemma C6_no_match_no_generation_witness :
  query cfg_default docs01 embs_x "What is revenue?" (Ok [[0; 1]])
    (Ok "unused") 5
    = ([CallEmbeddings ["What is revenue?"]], Ok (noInfoResult 5)).
Proof.
  apply C6_no_match_no_generation. right.
  exists [0; 1], []. split; [reflexivity|].
  constructor; [vm_compute; reflexivity | constructor].
Defined.

(** C3: on the public query path the one external call is the
    generation request of the agent run (the model is given no tools, so
    no embedding request is made); whatever the outcome of that request,
    the [/query] reply is a success. When the call fails, for any reason,
    the reply's text is the apology naming the error and its confidence is
    exactly 0; when it succeeds, the text is the model's and the
    confidence 0.8. *)
Theorem C3_generation_failure_degrades (selectedCount : nat)
    (fetchRes : Result MastraGenerate.ChatHttpResponse) (elapsed : Z) :
  success (MastraGenerate.query_path selectedCount fetchRes elapsed) = true /\
  (forall m, MastraGenerate.doGenerate fetchRes = Err m ->
     data_response (MastraGenerate.query_path selectedCount fetchRes elapsed) =
       "I apologize, but I encountered an error while processing your query: "
       ++ m ++ ". Please try again." /\
     data_confidence (MastraGenerate.query_path selectedCount fetchRes elapsed) = 0) /\
  (forall r, MastraGenerate.doGenerate fetchRes = Ok r ->
     data_response (MastraGenerate.query_path selectedCount fetchRes elapsed) =
       MastraGenerate.gtext r /\
     data_confidence (MastraGenerate.query_path selectedCount fetchRes elapsed) = 8 # 10).
Proof.
  unfold MastraGenerate.query_path.
  split; [reflexivity|].
  split; intros ? E; rewrite E; split; reflexivity.
Qed.

Lemma C3_generation_failure_degrades_witness :
  data_response (MastraGenerate.query_path 1
    (Ok {| MastraGenerate.hok := false; MastraGenerate.hstatus := 429;
           MastraGenerate.hstatusText := "Too Many Requests";
           MastraGenerate.hbody := Ok None |}) 10) =
    "I apologize, but I encountered an error while processing your query: "
    ++ "SambaNova API error: 429 Too Many Requests" ++ ". Please try again." /\
  data_confidence (MastraGenerate.query_path 1
    (Ok {| MastraGenerate.hok := false; MastraGenerate.hstatus := 429;
           MastraGenerate.hstatusText := "Too Many Requests";
           MastraGenerate.hbody := Ok None |}) 10) = 0.
Proof.
  exact (proj1 (proj2 (C3_generation_failure_degrades 1
    (Ok {| MastraGenerate.hok := false; MastraGenerate.hstatus := 429;
           MastraGenerate.hstatusText := "Too Many Requests";
           MastraGenerate.hbody := Ok None |}) 10))
    "SambaNova API error: 429 Too Many Requests" eq_refl).
Defined.

End QueryFacts.

Module ThrottleFacts.
Import Throttle ThrottleFixtures.
Open Scope Z_scope.

(** Case on every boolean test of the goal and turn the outcomes into
    arithmetic facts. *)
Ltac zbool :=
  repeat match goal with
  | H : (_ <? _) = true |- _ => apply Z.ltb_lt in H
  | H : (_ <? _) = false |- _ => apply Z.ltb_ge in H
  | H : (_ >? _) = true |- _ => rewrite Z.gtb_ltb in H
  | H : (_ >? _) = false |- _ => rewrite Z.gtb_ltb in H
  | H : (_ >=? _) = true |- _ => rewrite Z.geb_le in H
  | H : (_ >=? _) = false |- _ => rewrite Z.geb_leb in H; apply Z.leb_gt in H
  end.

Ltac split_ifs :=
  repeat match goal with
         | |- context [if ?b then _ else _] => destruct b eqn:?
         end;
  cbn [fst snd lastRequestTime requestCount lastResetTime] in *; zbool.

(** C2 (as amended): each throttler, taken alone, lets a call proceed no
    earlier than its entry time and no earlier than [rateLimitDelayMs]
    after the previous call it let through; the provider's call that finds
    the count at its cap inside an unexpired window proceeds no earlier than
    the end of that window; and a call through one client leaves the other
    client's throttling state unchanged. *)
Theorem C2_separate_throttlers (cfg : RateConfig) (st : RateState)
    (delay last now : Z) (p : Process) :
  (snd (supabase_enforce delay last now) >= now /\
   snd (supabase_enforce delay last now) >= last + delay /\
   fst (supabase_enforce delay last now) = snd (supabase_enforce delay last now)) /\
  (snd (provider_enforce cfg st now) >= now /\
   snd (provider_enforce cfg st now) >= lastRequestTime st + rateLimitDelayMs cfg /\
   lastRequestTime (fst (provider_enforce cfg st now)) = snd (provider_enforce cfg st now)) /\
  (requestCount st >= maxRequestsPerMinute cfg ->
   now - lastResetTime st < 60000 ->
   snd (provider_enforce cfg st now) >= lastResetTime st + 60000) /\
  provider (fst (acquire p SupabaseClient now)) = provider p /\
  supabaseLast (fst (acquire p ProviderClient now)) = supabaseLast p.
Proof.
  split; [|split; [|split; [|split]]].
  - unfold supabase_enforce. split_ifs; lia.
  - unfold provider_enforce. split_ifs; lia.
  - intros Hc Hw. unfold provider_enforce.
    replace (now - lastResetTime st >? 60000) with false
      by (symmetry; rewrite Z.gtb_ltb; apply Z.ltb_ge; lia).
    replace (requestCount st >=? maxRequestsPerMinute cfg) with true
      by (symmetry; rewrite Z.geb_le; lia).
    replace (60000 - (now - lastResetTime st) >? 0) with true
      by (symmetry; rewrite Z.gtb_ltb; apply Z.ltb_lt; lia).
    split_ifs; lia.
  - unfold acquire. destruct (supabase_enforce _ _ _). reflexivity.
  - unfold acquire. destruct (provider_enforce _ _ _). reflexivity.
Qed.

Lemma C2_separate_throttlers_witness :
  snd (provider_enforce providerConfig st_full 100000) >= 50000 + 60000.
Proof.
  exact (proj1 (proj2 (proj2
           (C2_separate_throttlers providerConfig st_full 8000 0 100000
              (process_init 0))))
           ltac:(cbn; lia) ltac:(cbn; lia)).
Defined.

(** C2 fails: the two clients keep separate state, so a call through
    [ragSystem] and a call through the Mastra provider issued at the same
    instant both proceed at once, 0 ms apart instead of 8000. *)
Lemma C2_two_clients_counterexample :
  process_run (process_init 0)
    [(SupabaseClient, 100000); (ProviderClient, 100000)] = [100000; 100000].
Proof. reflexivity. Qed.

(** C5 (code defect): six sequential calls into a provider created at
    50000. The sixth, at 100000, finds five calls in the window, waits
    10000 ms for the window to end, and then waits a further 7000 ms
    because the 1000 ms since the previous call was measured on entry:
    it proceeds at 117000 = 100000 + 10000 + 7000. Measured after the
    window wait, 11000 ms have passed since the previous call and it
    would proceed at 110000. *)
Lemma C5_stale_delay_check :
  provider_run providerConfig (provider_init 50000)
    [67000; 75000; 83000; 91000; 99000; 100000]
    = [67000; 75000; 83000; 91000; 99000; 117000] /\
  snd (provider_enforce providerConfig st_full 100000)
    = 100000 + 10000 + (8000 - 1000) /\
  snd (provider_enforce_after_wait providerConfig st_full 100000) = 110000.
Proof. repeat split; reflexivity. Qed.

End ThrottleFacts.

Module MemoryFacts.
Import Ranker Memory MemoryFixtures.

Lemma map_filter_comm {A B} (f : A -> B) (g : B -> bool) (l : list A) :
  map f (filter (fun x => g (f x)) l) = filter g (map f l).
Proof.
  induction l as [|x l IH]; cbn; [reflexivity|].
  destruct (g (f x)); cbn; rewrite IH; reflexivity.
Qed.

Lemma assignIds_length docs rows docs' :
  assignIds docs rows = Some docs' -> length docs' = length docs.
Proof.
  revert rows docs'; induction docs as [|d ds IH]; intros rows docs' H;
    cbn in H.
  - injection H as <-; reflexivity.
  - destruct rows as [|r rs]; [discriminate|].
    destruct (assignIds ds rs) eqn:E; [|discriminate].
    injection H as <-; cbn; f_equal; exact (IH _ _ E).
Qed.

Lemma assignIds_wellFormed docs rows docs' :
  assignIds docs rows = Some docs' -> Forall wellFormed docs'.
Proof.
  revert rows docs'; induction docs as [|d ds IH]; intros rows docs' H;
    cbn in H.
  - injection H as <-; constructor.
  - destruct rows as [|r rs]; [discriminate|].
    destruct (assignIds ds rs) eqn:E; [|discriminate].
    injection H as <-; constructor; [reflexivity | exact (IH _ _ E)].
Qed.

Lemma embeddingItems_ids es docs :
  length es = length docs -> Forall wellFormed docs ->
  exists items, embeddingItems es docs = Some items /\
    map (fun emb => mid (emeta emb)) items = map did docs.
Proof.
  revert docs; induction es as [|e es IH]; intros [|d ds] Hlen Hwf;
    cbn in Hlen; try discriminate.
  - exists []; split; reflexivity.
  - inversion Hwf as [|? ? Hd Hds]; subst.
    destruct (IH ds (eq_add_S _ _ Hlen) Hds) as (items & Hitems & Hmap).
    cbn; rewrite Hitems.
    eexists; split; [reflexivity|].
    cbn; rewrite Hmap; f_equal; symmetry; exact Hd.
Qed.

(** C9: starting from a state where the two in-memory lists agree on ids
    position by position, loading from the store, uploading a file,
    adding documents, deleting by id and clearing all leave them in
    agreement, whatever the outcomes of the external calls. For
    [addDocuments] this assumes that the embedding service returns one
    vector per text and, when the insert returns no rows, that the
    caller's documents carry matching [id] and [metadata.id]. *)
Theorem C9_memory_lists_stay_aligned (st : RagState) :
  consistent st ->
  (forall res, consistent (loadDocumentsFromSupabase res st)) /\
  (forall file tags stamp uploadRes contentRes embedRes insertRes,
      consistent (fst (uploadFile st file tags stamp uploadRes contentRes
                                   embedRes insertRes))) /\
  (forall docs embedRes insertRes,
      (forall es, embedRes = Ok es -> length es = length docs) ->
      (insertRes = Ok None -> Forall wellFormed docs) ->
      consistent (fst (addDocuments st docs embedRes insertRes))) /\
  (forall id getRes removeRes deleteRes,
      consistent (fst (deleteDocument st id getRes removeRes deleteRes))) /\
  (forall res, consistent (fst (clearDocuments st res))).
Proof.
  unfold consistent; intros Hst; repeat split.
  - intros [[[|r rs]|]|m]; cbn; try exact Hst.
    rewrite !map_map; reflexivity.
  - intros file tags stamp [u|m] [c|m1] [es|m2] [newId|m3]; cbn; try exact Hst.
    rewrite !map_app, Hst; reflexivity.
  - intros docs [es|m] [ins|m1] Hlen Hwf; cbn; try exact Hst.
    specialize (Hlen es eq_refl).
    assert (Hdocs : exists docs', (match ins with
                                   | Some rows => assignIds docs rows
                                   | None => Some docs end) = Some docs' /\
                                  length docs' = length docs /\
                                  Forall wellFormed docs' \/
                                  (match ins with
                                   | Some rows => assignIds docs rows
                                   | None => Some docs end) = None).
    { destruct ins as [rows|].
      - destruct (assignIds docs rows) as [docs'|] eqn:E.
        + exists docs'; left; split; [reflexivity|].
          split; [exact (assignIds_length _ _ _ E)
                 | exact (assignIds_wellFormed _ _ _ E)].
        + exists docs; right; reflexivity.
      - exists docs; left; split; [reflexivity|].
        split; [reflexivity | exact (Hwf eq_refl)]. }
    destruct Hdocs as (docs' & [(Hsel & Hl' & Hwf') | Hsel]);
      rewrite Hsel; cbn; [|exact Hst].
    rewrite <- Hl' in Hlen.
    destruct (embeddingItems_ids es docs' Hlen Hwf') as (items & Hi & Hmap).
    rewrite Hi; cbn.
    rewrite !map_app, Hst, Hmap; reflexivity.
  - intros id [[row|]|m] removeRes [d|m1]; cbn; try exact Hst.
    rewrite (map_filter_comm did (fun x => negb (String.eqb x id))).
    rewrite (map_filter_comm (fun emb => mid (emeta emb))
                              (fun x => negb (String.eqb x id))).
    rewrite Hst; reflexivity.
  - intros [u|m]; cbn; [reflexivity | exact Hst].
Qed.

Lemma C9_memory_lists_stay_aligned_witness :
  consistent empty_state /\
  consistent (fst (addDocuments empty_state [doc_note] (Ok [[1%Q; 0%Q]])
                                (Ok (Some ["uuid-1"])))).
Proof.
  split; [reflexivity|].
  apply (proj1 (proj2 (proj2 (C9_memory_lists_stay_aligned empty_state
                                eq_refl)))).
  - intros es H; injection H as <-; reflexivity.
  - intros H; discriminate H.
Defined.

End MemoryFacts.

Module TextFacts.
Import JsString JsText Upload Recommend.

Lemma str_app_assoc (a b c : string) : (a ++ b) ++ c = a ++ (b ++ c).
Proof. induction a as [|x a IH]; cbn; [reflexivity | now rewrite IH]. Qed.

Lemma str_app_nil (a : string) : a ++ "" = a.
Proof. induction a as [|x a IH]; cbn; [reflexivity | now rewrite IH]. Qed.

Lemma list_ascii_app (a b : string) :
  list_ascii_of_string (a ++ b) = (list_ascii_of_string a ++ list_ascii_of_string b)%list.
Proof. induction a as [|x a IH]; cbn; [reflexivity | now rewrite IH]. Qed.

Lemma noChar_cons (c x : ascii) (s : string) :
  noChar c (String x s) = negb (Ascii.eqb x c) && noChar c s.
Proof. reflexivity. Qed.

Lemma split_nonempty (sep : ascii) (s : string) : split sep s <> [].
Proof.
  induction s as [|c t IH]; cbn; [discriminate|].
  destruct (Ascii.eqb c sep); [discriminate|].
  destruct (split sep t); [contradiction | discriminate].
Qed.

Lemma split_noChar (sep : ascii) (s : string) :
  noChar sep s = true -> split sep s = [s].
Proof.
  induction s as [|c t IH]; intro H; [reflexivity|].
  rewrite noChar_cons in H. apply andb_prop in H as [Hc Ht].
  cbn. rewrite (IH Ht). apply negb_true_iff in Hc. rewrite Hc. reflexivity.
Qed.

Lemma split_app_sep (sep : ascii) (a b : string) :
  exists h pre, split sep (a ++ String sep b) = h :: (pre ++ split sep b)%list.
Proof.
  induction a as [|c a IH]; cbn.
  - rewrite Ascii.eqb_refl. exists "", []. reflexivity.
  - destruct IH as (h & pre & E). rewrite E.
    destruct (Ascii.eqb c sep).
    + exists "", (h :: pre). reflexivity.
    + exists (String c h), pre. reflexivity.
Qed.

Lemma last_app_nonempty {A} (l1 l2 : list A) (d : A) :
  l2 <> [] -> last (l1 ++ l2) d = last l2 d.
Proof.
  intro H. induction l1 as [|x l1 IH]; [reflexivity|].
  cbn. rewrite IH. destruct (l1 ++ l2)%list eqn:E; [|reflexivity].
  apply app_eq_nil in E as [_ E]. contradiction.
Qed.

Lemma toLowerCase_app (a b : string) :
  toLowerCase (a ++ b) = toLowerCase a ++ toLowerCase b.
Proof. induction a as [|c a IH]; cbn; [reflexivity | now rewrite IH]. Qed.

Lemma lower_char_dot (c : ascii) : c <> "."%char -> lower_char c <> "."%char.
Proof.
  intros Hc. unfold lower_char.
  destruct ((65 <=? nat_of_ascii c)%nat && (nat_of_ascii c <=? 90)%nat) eqn:E;
    [|exact Hc].
  apply andb_prop in E as [E1 E2]. apply Nat.leb_le in E1, E2.
  intro Habs. apply (f_equal nat_of_ascii) in Habs.
  rewrite nat_ascii_embedding in Habs by lia. cbn in Habs. lia.
Qed.

Lemma toLowerCase_noDot (s : string) :
  noChar "." s = true -> noChar "." (toLowerCase s) = true.
Proof.
  induction s as [|c t IH]; intro H; [reflexivity|].
  rewrite noChar_cons in H. apply andb_prop in H as [Hc Ht].
  cbn [toLowerCase]. rewrite noChar_cons, (IH Ht), andb_true_r.
  apply negb_true_iff, Ascii.eqb_neq. apply lower_char_dot.
  apply negb_true_iff, Ascii.eqb_neq in Hc. exact Hc.
Qed.

Lemma trimStart_app_ws (w t : string) :
  forallb is_ws (list_ascii_of_string w) = true -> trimStart (w ++ t) = trimStart t.
Proof.
  induction w as [|c w IH]; intro H; [reflexivity|].
  cbn in H. apply andb_prop in H as [Hc Hw]. cbn. rewrite Hc. exact (IH Hw).
Qed.

Lemma trimStart_shrinks (s : string) :
  trimStart s = s \/ (String.length (trimStart s) < String.length s)%nat.
Proof.
  induction s as [|c t IH]; cbn; [left; reflexivity|].
  destruct (is_ws c); [right | left; reflexivity].
  destruct IH as [E | L]; [rewrite E|]; cbn; lia.
Qed.

Lemma trimEnd_length (s : string) :
  (String.length (trimEnd s) <= String.length s)%nat.
Proof.
  induction s as [|c t IH]; cbn; [lia|].
  destruct (is_ws c && String.eqb (trimEnd t) ""); cbn; lia.
Qed.

Lemma trim_fixed_start (t : string) : trim t = t -> trimStart t = t.
Proof.
  unfold trim. intro H. destruct (trimStart_shrinks t) as [E | L]; [exact E|].
  pose proof (trimEnd_length (trimStart t)) as L2. rewrite H in L2. lia.
Qed.

Lemma trimEnd_idem (s : string) : trimEnd (trimEnd s) = trimEnd s.
Proof.
  induction s as [|c t IH]; [reflexivity|]. cbn [trimEnd].
  destruct (is_ws c && String.eqb (trimEnd t) "") eqn:E; [reflexivity|].
  cbn [trimEnd]. rewrite IH, E. reflexivity.
Qed.

Lemma trimStart_head (s : string) :
  trimStart s = "" \/ exists c t, trimStart s = String c t /\ is_ws c = false.
Proof.
  induction s as [|c t IH]; cbn; [left; reflexivity|].
  destruct (is_ws c) eqn:E; [exact IH|]. right. exists c, t. split; [reflexivity | exact E].
Qed.

Lemma trim_idem (s : string) : trim (trim s) = trim s.
Proof.
  unfold trim. destruct (trimStart_head s) as [E | (c & t & E & Hc)]; rewrite E.
  - reflexivity.
  - cbn [trimEnd]. rewrite Hc. cbn [andb trimStart]. rewrite Hc.
    cbn [trimEnd]. rewrite Hc, trimEnd_idem. reflexivity.
Qed.

Lemma noChar_trimStart (c : ascii) (s : string) :
  noChar c s = true -> noChar c (trimStart s) = true.
Proof.
  induction s as [|x t IH]; intro H; [reflexivity|].
  cbn [trimStart]. destruct (is_ws x); [|exact H].
  rewrite noChar_cons in H. apply andb_prop in H as [_ H]. exact (IH H).
Qed.

Lemma noChar_trimEnd (c : ascii) (s : string) :
  noChar c s = true -> noChar c (trimEnd s) = true.
Proof.
  induction s as [|x t IH]; intro H; [reflexivity|].
  rewrite noChar_cons in H. apply andb_prop in H as [Hx Ht].
  cbn [trimEnd]. destruct (is_ws x && String.eqb (trimEnd t) ""); [reflexivity|].
  rewrite noChar_cons, Hx, (IH Ht). reflexivity.
Qed.

Lemma noChar_spanDigits (c : ascii) (s : string) :
  noChar c s = true -> noChar c (snd (spanDigits s)) = true.
Proof.
  induction s as [|x t IH]; intro H; [reflexivity|].
  cbn [spanDigits]. destruct (is_digit x); [|exact H].
  rewrite noChar_cons in H. apply andb_prop in H as [_ H].
  specialize (IH H). destruct (spanDigits t). exact IH.
Qed.

Lemma noChar_stripListNumber (c : ascii) (s : string) :
  noChar c s = true -> noChar c (stripListNumber s) = true.
Proof.
  intro H. unfold stripListNumber.
  pose proof (noChar_spanDigits c s H) as Hs.
  destruct (spanDigits s) as [[|k] [|x r]]; try exact H.
  destruct (Ascii.eqb x "."); [|exact H].
  apply noChar_trimStart. cbn [snd] in Hs. rewrite noChar_cons in Hs.
  apply andb_prop in Hs as [_ Hs]. exact Hs.
Qed.

Lemma split_all_noChar (sep : ascii) (s : string) :
  Forall (fun piece => noChar sep piece = true) (split sep s).
Proof.
  induction s as [|c t IH]; cbn; [repeat constructor|].
  destruct (Ascii.eqb c sep) eqn:E; [constructor; [reflexivity | exact IH]|].
  destruct (split sep t) as [|h rs]; [repeat constructor; cbn; rewrite E; reflexivity|].
  inversion IH as [|? ? Hh Hrs]; subst. constructor; [|exact Hrs].
  rewrite noChar_cons, E, Hh. reflexivity.
Qed.

Lemma Forall_firstn {A} (P : A -> Prop) (n : nat) (l : list A) :
  Forall P l -> Forall P (firstn n l).
Proof.
  revert l; induction n as [|n IH]; intros [|x l] H; cbn; try constructor.
  - inversion H; assumption.
  - apply IH. inversion H; assumption.
Qed.

Lemma spanDigits_app_dot (d rest : string) :
  forallb is_digit (list_ascii_of_string d) = true ->
  spanDigits (d ++ String "." rest) = (String.length d, String "." rest).
Proof.
  induction d as [|c d IH]; intro H; [reflexivity|].
  cbn in H. apply andb_prop in H as [Hc Hd]. cbn. rewrite Hc, (IH Hd). reflexivity.
Qed.

(** The file type check accepts every upload sent as
    [application/octet-stream], whatever its name. *)
Theorem checkFileType_octet_stream (filename : option string) :
  checkFileType filename "application/octet-stream" = Ok tt.
Proof.
  unfold checkFileType.
  replace (array_includes ALLOWED_MIME_TYPES "application/octet-stream") with true
    by reflexivity.
  reflexivity.
Qed.

(** The extension is the lower-cased text after the last dot, or the whole
    lower-cased name when it has no dot; so a name ending in an allowed
    extension in any letter case passes the check whatever its MIME type. *)
Theorem extension_last_segment (base ext mimetype : string) :
  noChar "." ext = true ->
  extension (base ++ "." ++ ext) = toLowerCase ext /\
  extension ext = toLowerCase ext /\
  (In (toLowerCase ext) ALLOWED_EXTENSIONS ->
   checkFileType (Some (base ++ "." ++ ext)) mimetype = Ok tt).
Proof.
  intro Hext.
  assert (Hl : noChar "." (toLowerCase ext) = true) by (apply toLowerCase_noDot, Hext).
  assert (E1 : extension (base ++ "." ++ ext) = toLowerCase ext).
  { unfold extension, pop. rewrite toLowerCase_app.
    change (toLowerCase ("." ++ ext)) with (String "." (toLowerCase ext)).
    destruct (split_app_sep "." (toLowerCase base) (toLowerCase ext)) as (h & pre & E).
    rewrite E, (split_noChar _ _ Hl).
    change (h :: (pre ++ [toLowerCase ext]))%list with
      ((h :: pre) ++ [toLowerCase ext])%list.
    rewrite last_app_nonempty by discriminate. reflexivity. }
  split; [exact E1|]. split.
  - unfold extension, pop. rewrite (split_noChar _ _ Hl). reflexivity.
  - intro Hin. unfold checkFileType. rewrite E1.
    replace (array_includes ALLOWED_EXTENSIONS (toLowerCase ext)) with true.
    + rewrite andb_false_r. reflexivity.
    + symmetry. unfold array_includes. apply existsb_exists.
      exists (toLowerCase ext). split; [exact Hin | apply String.eqb_refl].
Qed.

Lemma extension_last_segment_witness :
  extension ("Q3 report" ++ "." ++ "PDF") = toLowerCase "PDF" /\
  extension "PDF" = toLowerCase "PDF" /\
  (In (toLowerCase "PDF") ALLOWED_EXTENSIONS ->
   checkFileType (Some ("Q3 report" ++ "." ++ "PDF")) "image/png" = Ok tt).
Proof. apply extension_last_segment. reflexivity. Defined.

(** A file that is not labelled [text/plain] or [text/markdown] and whose
    extension is [csv] is summarised as CSV whatever its MIME type (even
    [application/pdf], whose parser is then not consulted): the extracted
    content is the CSV summary of the file, which contains the whole file
    text. *)
Theorem extractContent_csv_extension (mimetype name bufferText : string) (size : Z)
    (pdfRes : Result string) :
  extension name = "csv" ->
  mimetype <> "text/plain" -> mimetype <> "text/markdown" ->
  extractContent mimetype name bufferText size pdfRes = Ok (csvSummary name bufferText) /\
  exists pre suf, csvSummary name bufferText = pre ++ bufferText ++ suf.
Proof.
  intros He Hp Hm. unfold extractContent. cbv zeta. rewrite He.
  apply String.eqb_neq in Hp, Hm. rewrite Hp, Hm, !orb_true_r. cbn [orb].
  split; [reflexivity|].
  exists ("CSV Document: " ++ name ++ nls ++ nls ++
          "This is a CSV file with the following structure:" ++ nls ++
          "Headers: " ++ join ", " (csvHeaders (csvLines bufferText)) ++ nls ++
          "Total Rows: " ++ zstr (Z.of_nat (length (csvLines bufferText)) - 1) ++
          " data rows" ++ nls ++ nls ++ "COMPLETE CSV DATA:" ++ nls).
  exists (nls ++ nls ++
    "This CSV contains financial data that can be analyzed for questions about companies, revenue, profit, employees, industries, etc.").
  unfold csvSummary. cbv zeta. rewrite !str_app_assoc. reflexivity.
Qed.

Lemma extractContent_csv_extension_witness :
  extractContent "application/pdf" "sales.CSV" "a,b" 3 (Err "bad pdf") =
    Ok (csvSummary "sales.CSV" "a,b") /\
  exists pre suf, csvSummary "sales.CSV" "a,b" = pre ++ "a,b" ++ suf.
Proof.
  apply extractContent_csv_extension; [reflexivity | discriminate | discriminate].
Defined.

(** A CSV file whose lines are all blank is summarised with an empty
    header list and a row count of -1. *)
Theorem csvSummary_blank (name csvContent : string) :
  Forall (fun line => trim line = "") (split newline csvContent) ->
  csvHeaders (csvLines csvContent) = [] /\
  exists pre suf, csvSummary name csvContent =
    pre ++ "Headers: " ++ nls ++ "Total Rows: -1 data rows" ++ suf.
Proof.
  intro H.
  assert (E : csvLines csvContent = []).
  { unfold csvLines. induction H as [|l ls Hl _ IH]; [reflexivity|].
    cbn. rewrite Hl. exact IH. }
  split; [rewrite E; reflexivity|].
  unfold csvSummary. cbv zeta. rewrite E.
  exists ("CSV Document: " ++ name ++ nls ++ nls ++
          "This is a CSV file with the following structure:" ++ nls).
  exists (nls ++ nls ++ "COMPLETE CSV DATA:" ++ nls ++ csvContent ++ nls ++ nls ++
    "This CSV contains financial data that can be analyzed for questions about companies, revenue, profit, employees, industries, etc.").
  rewrite !str_app_assoc. reflexivity.
Qed.

Lemma csvSummary_blank_witness :
  csvHeaders (csvLines (String newline " ")) = [] /\
  exists pre suf, csvSummary "empty.csv" (String newline " ") =
    pre ++ "Headers: " ++ nls ++ "Total Rows: -1 data rows" ++ suf.
Proof. apply csvSummary_blank. repeat constructor. Defined.

(** A file with an unrecognised MIME type whose name contains [csv] in any
    letter case, say [my_csv_notes.txt], is summarised as a CSV file. *)
Theorem extractContent_csv_name_fallback (mimetype name bufferText : string)
    (size : Z) (pdfRes : Result string) :
  ~ In mimetype ["text/plain"; "text/markdown"; "text/csv"; "application/csv";
                 "application/pdf"] ->
  includes (toLowerCase name) "csv" = true ->
  extractContent mimetype name bufferText size pdfRes =
    Ok (csvSummary name bufferText).
Proof.
  intros Hm Hc. unfold extractContent.
  assert (N : forall m, In m ["text/plain"; "text/markdown"; "text/csv";
                              "application/csv"; "application/pdf"] ->
                        String.eqb mimetype m = false).
  { intros m Hin. apply String.eqb_neq. intro; subst. contradiction. }
  rewrite (N "text/plain"), (N "text/markdown"), (N "text/csv"),
    (N "application/csv"), (N "application/pdf") by (cbn; tauto).
  cbn [orb]. rewrite Hc, orb_true_r.
  destruct (String.eqb (extension name) "csv"); reflexivity.
Qed.

Lemma extractContent_csv_name_fallback_witness :
  extractContent "application/octet-stream" "My_CSV_notes.txt" "x" 1 (Ok "") =
    Ok (csvSummary "My_CSV_notes.txt" "x").
Proof.
  apply extractContent_csv_name_fallback; [cbn; intuition discriminate | reflexivity].
Defined.

(** The recommendation tool returns at most five follow-up questions, each
    without surrounding whitespace and without a line break; a failed
    generation call gives none. *)
Theorem recommendations_shape (genRes : Result string) :
  (length (recommendation_execute genRes) <= 5)%nat /\
  Forall (fun r => trim r = r /\ noChar newline r = true)
    (recommendation_execute genRes) /\
  (forall m, recommendation_execute (Err m) = []).
Proof.
  split; [|split].
  - destruct genRes; cbn [recommendation_execute];
      [unfold parseRecommendations; apply firstn_le_length | cbn; lia].
  - destruct genRes as [text|m]; cbn [recommendation_execute]; [|constructor].
    unfold parseRecommendations. apply Forall_firstn.
    apply Forall_map. apply Forall_forall. intros line Hin.
    apply filter_In in Hin as [Hin _].
    pose proof (proj1 (Forall_forall _ _) (split_all_noChar newline text) line Hin)
      as Hnl. cbn beta in Hnl.
    split; [apply trim_idem|].
    unfold trim. apply noChar_trimEnd, noChar_trimStart, noChar_stripListNumber, Hnl.
  - intro m. reflexivity.
Qed.

(** A numbered line [d. t] (digits, a dot, blanks other than line breaks,
    then a trimmed text [t]) yields the single recommendation [t]; when [t]
    is empty, as in ["3."], the recommendation is the empty string. *)
Theorem recommendations_strip_number (d w t : string) :
  d <> "" -> forallb is_digit (list_ascii_of_string d) = true ->
  forallb (fun c => is_ws c && negb (Ascii.eqb c newline)) (list_ascii_of_string w) = true ->
  trim t = t -> noChar newline t = true ->
  recommendation_execute (Ok (d ++ "." ++ w ++ t)) = [t].
Proof.
  intros Hd Hdig Hw Ht Htn.
  assert (Hws : forallb is_ws (list_ascii_of_string w) = true).
  { clear - Hw. induction w as [|c w IH]; [reflexivity|].
    cbn in *. apply andb_prop in Hw as [Hc Hw]. apply andb_prop in Hc as [Hc _].
    rewrite Hc. exact (IH Hw). }
  assert (Hline : noChar newline (d ++ "." ++ w ++ t) = true).
  { unfold noChar. rewrite !list_ascii_app, !forallb_app.
    cbn [list_ascii_of_string forallb]. fold (noChar newline t). rewrite Htn.
    assert (E1 : forallb (fun x => negb (Ascii.eqb x newline))
                   (list_ascii_of_string d) = true).
    { clear - Hdig. induction d as [|c d IH]; [reflexivity|].
      cbn in *. apply andb_prop in Hdig as [Hc Hd]. rewrite (IH Hd), andb_true_r.
      unfold is_digit in Hc. apply andb_prop in Hc as [H1 H2].
      apply Nat.leb_le in H1, H2. apply negb_true_iff, Ascii.eqb_neq.
      intro E. rewrite E in H1. cbn in H1. lia. }
    assert (E2 : forallb (fun x => negb (Ascii.eqb x newline))
                   (list_ascii_of_string w) = true).
    { clear - Hw. induction w as [|c w IH]; [reflexivity|].
      cbn in *. apply andb_prop in Hw as [Hc Hw]. apply andb_prop in Hc as [_ Hc].
      rewrite Hc. exact (IH Hw). }
    rewrite E1, E2. reflexivity. }
  cbn [recommendation_execute]. unfold parseRecommendations.
  rewrite (split_noChar _ _ Hline).
  destruct d as [|c0 d']; [contradiction|].
  assert (Hc0 : is_ws c0 = false).
  { cbn in Hdig. apply andb_prop in Hdig as [Hc _]. unfold is_digit, is_ws in *.
    apply andb_prop in Hc as [H1 H2]. apply Nat.leb_le in H1, H2.
    destruct (Nat.eqb_spec (nat_of_ascii c0) 32); [lia|].
    destruct (9 <=? nat_of_ascii c0)%nat eqn:E1; [|reflexivity].
    destruct (nat_of_ascii c0 <=? 13)%nat eqn:E2; [apply Nat.leb_le in E2; lia|].
    reflexivity. }
  assert (Hnb : String.eqb (trim (String c0 d' ++ "." ++ w ++ t)) "" = false).
  { unfold trim. cbn [String.append trimStart]. rewrite Hc0. cbn [trimEnd].
    rewrite Hc0. reflexivity. }
  cbn [filter]. rewrite Hnb. cbn [negb map firstn].
  unfold stripListNumber.
  change ("." ++ w ++ t) with (String "." (w ++ t)).
  rewrite (spanDigits_app_dot _ _ Hdig). cbn [String.length].
  rewrite Ascii.eqb_refl, (trimStart_app_ws _ _ Hws), (trim_fixed_start _ Ht), Ht.
  reflexivity.
Qed.

Lemma recommendations_strip_number_witness :
  recommendation_execute (Ok ("12" ++ "." ++ " " ++ "What drove revenue?")) =
    ["What drove revenue?"] /\
  recommendation_execute (Ok ("3" ++ "." ++ "" ++ "")) = [""].
Proof.
  split; apply recommendations_strip_number;
    (discriminate || reflexivity).
Defined.

End TextFacts.

Module StoreFacts.
Import Ranker Memory Store.

Lemma embeddingItems_none (es : list (list Q)) (docs : list Document) :
  embeddingItems es docs = None -> (length docs < length es)%nat.
Proof.
  revert docs; induction es as [|e es IH]; intros [|d ds] H; cbn in *;
    try discriminate; try lia.
  destruct (embeddingItems es ds) eqn:E; [discriminate|]. specialize (IH ds E). lia.
Qed.

Lemma embeddingItems_length (es : list (list Q)) (docs : list Document) items :
  embeddingItems es docs = Some items -> length items = length es.
Proof.
  revert docs items; induction es as [|e es IH]; intros [|d ds] items H; cbn in H;
    try discriminate.
  - injection H as <-; reflexivity.
  - injection H as <-; reflexivity.
  - destruct (embeddingItems es ds) eqn:E; [|discriminate].
    injection H as <-. cbn. f_equal. exact (IH _ _ E).
Qed.

Lemma assignIds_ids (docs : list Document) (rows : list string) docs' :
  assignIds docs rows = Some docs' -> map did docs' = firstn (length docs) rows.
Proof.
  revert rows docs'; induction docs as [|d ds IH]; intros rows docs' H; cbn in H.
  - injection H as <-. reflexivity.
  - destruct rows as [|r rs]; [discriminate|].
    destruct (assignIds ds rs) eqn:E; [|discriminate].
    injection H as <-. cbn. f_equal. exact (IH _ _ E).
Qed.

Lemma assignIds_combine (docs : list Document) (rows : list string) docs' :
  assignIds docs rows = Some docs' ->
  docs' = map (fun p => setId (fst p) (snd p)) (combine docs rows) /\
  (length docs <= length rows)%nat.
Proof.
  revert rows docs'; induction docs as [|d ds IH]; intros rows docs' H; cbn in H.
  - injection H as <-. split; [reflexivity | cbn; lia].
  - destruct rows as [|r rs]; [discriminate|].
    destruct (assignIds ds rs) eqn:E; [|discriminate].
    injection H as <-. destruct (IH _ _ E) as [Hc Hl].
    cbn. split; [now rewrite Hc | lia].
Qed.

Lemma load_consistent st res :
  consistent st -> consistent (loadDocumentsFromSupabase res st).
Proof.
  unfold consistent. intro Hst.
  destruct res as [[[|r rs]|]|m]; cbn; try exact Hst.
  rewrite !map_map. reflexivity.
Qed.

Lemma upload_consistent st file tags stamp u c e i :
  consistent st -> consistent (fst (uploadFile st file tags stamp u c e i)).
Proof.
  unfold consistent. intro Hst.
  destruct u, c, e, i; cbn; try exact Hst.
  rewrite !map_app, Hst. reflexivity.
Qed.

Lemma add_consistent st docs embedRes insertRes :
  consistent st ->
  (forall es, embedRes = Ok es -> length es = length docs) ->
  (insertRes = Ok None -> Forall wellFormed docs) ->
  consistent (fst (addDocuments st docs embedRes insertRes)).
Proof.
  unfold consistent. intros Hst Hlen Hwf.
  destruct embedRes as [es|m]; [|exact Hst]. specialize (Hlen es eq_refl).
  destruct insertRes as [ins|m]; [|exact Hst]. cbn.
  destruct ins as [rows|].
  - destruct (assignIds docs rows) as [docs'|] eqn:E; [|exact Hst].
    rewrite <- (MemoryFacts.assignIds_length _ _ _ E) in Hlen.
    destruct (MemoryFacts.embeddingItems_ids es docs' Hlen
                (MemoryFacts.assignIds_wellFormed _ _ _ E)) as (items & Hi & Hm).
    rewrite Hi. cbn. rewrite !map_app, Hst, Hm. reflexivity.
  - destruct (MemoryFacts.embeddingItems_ids es docs Hlen (Hwf eq_refl))
      as (items & Hi & Hm).
    rewrite Hi. cbn. rewrite !map_app, Hst, Hm. reflexivity.
Qed.

Lemma delete_consistent st id g r d :
  consistent st -> consistent (fst (deleteDocument st id g r d)).
Proof.
  unfold consistent. intro Hst.
  destruct g as [[row|]|m], d as [u|m1]; cbn; try exact Hst.
  rewrite (MemoryFacts.map_filter_comm did (fun x => negb (String.eqb x id))).
  rewrite (MemoryFacts.map_filter_comm (fun emb => mid (emeta emb))
                                      (fun x => negb (String.eqb x id))).
  rewrite Hst. reflexivity.
Qed.

Lemma clear_consistent st res :
  consistent st -> consistent (fst (clearDocuments st res)).
Proof. unfold consistent. intro Hst. destruct res; [reflexivity | exact Hst]. Qed.

Lemma formatDoc_wellFormed (reqs : list ReqDoc) : Forall wellFormed (map formatDoc reqs).
Proof.
  induction reqs as [|r rs IH]; constructor; [reflexivity | exact IH].
Qed.

Lemma addRoute_consistent st reqs embedRes insertRes :
  consistent st ->
  (forall es, embedRes = Ok es -> length es = length reqs) ->
  consistent (fst (addDocumentsRoute st reqs embedRes insertRes)).
Proof.
  intros Hst Hlen. unfold addDocumentsRoute.
  pose proof (add_consistent st (map formatDoc reqs) embedRes insertRes Hst
    (fun es H => eq_trans (Hlen es H) (eq_sym (length_map _ _)))
    (fun _ => formatDoc_wellFormed reqs)) as H.
  destruct (addDocuments st (map formatDoc reqs) embedRes insertRes) as [st' []];
    exact H.
Qed.

Lemma Forall_filter_neg {A} (f : A -> string) (id : string) (l : list A) (x : A) :
  In x (filter (fun y => negb (String.eqb (f y) id)) l) <-> In x l /\ f x <> id.
Proof.
  rewrite filter_In. rewrite negb_true_iff, String.eqb_neq. tauto.
Qed.

(** [uploadFile] changes nothing in memory when any of its steps fails;
    when it succeeds it appends exactly one document, carrying the id the
    database returned and the given tags, and one embedding entry with the
    same metadata and text. *)
Theorem uploadFile_outcome (st : RagState) (file : UploadedFile) (tags : list string)
    (stamp : string) (u : Result unit) (c : Result string)
    (e : Result (list (list Q))) (i : Result string) :
  (forall m, snd (uploadFile st file tags stamp u c e i) = Err m ->
             fst (uploadFile st file tags stamp u c e i) = st) /\
  (forall d, snd (uploadFile st file tags stamp u c e i) = Ok d ->
     i = Ok (did d) /\ mid (dmeta d) = did d /\ mtags (dmeta d) = tags /\
     documents (fst (uploadFile st file tags stamp u c e i)) = (documents st ++ [d])%list /\
     exists emb, embeddings (fst (uploadFile st file tags stamp u c e i)) =
                   (embeddings st ++ [emb])%list /\
                 emeta emb = dmeta d /\ etext emb = dcontent d).
Proof.
  destruct u, c, e, i; cbn; split; intros ? H; try discriminate; try reflexivity.
  injection H as <-. cbn. repeat split; try reflexivity.
  eexists. split; [reflexivity | split; reflexivity].
Qed.

Lemma uploadFile_outcome_witness :
  exists d,
    snd (uploadFile empty_state StoreFixtures.file_a ["t"] "1700000000000" (Ok tt)
           (Ok "hi") (Ok [[1%Q]]) (Ok "uuid-7")) = Ok d /\
    documents (fst (uploadFile empty_state StoreFixtures.file_a ["t"] "1700000000000"
                      (Ok tt) (Ok "hi") (Ok [[1%Q]]) (Ok "uuid-7")))
      = (documents empty_state ++ [d])%list.
Proof.
  eexists. split; [reflexivity|].
  exact (proj1 (proj2 (proj2 (proj2 (proj2
    (uploadFile_outcome empty_state StoreFixtures.file_a ["t"] "1700000000000" (Ok tt)
       (Ok "hi") (Ok [[1%Q]]) (Ok "uuid-7")) _ eq_refl))))).
Defined.

(** When [addDocuments] fails, the embeddings list is unchanged, and so is
    the documents list unless the embedding service returned more vectors
    than documents, in which case the documents were appended before the
    failure. When it succeeds, the documents are appended in order: as
    given when the insert returns no rows, and otherwise each document
    with the id of the inserted row at its index (there are at least as
    many rows as documents); the embeddings list grows by the number of
    vectors returned, which may be fewer than the documents. *)
Theorem addDocuments_outcome (st : RagState) (docs : list Document)
    (embedRes : Result (list (list Q))) (insertRes : Result (option (list string))) :
  (forall m, snd (addDocuments st docs embedRes insertRes) = Err m ->
     embeddings (fst (addDocuments st docs embedRes insertRes)) = embeddings st /\
     (documents (fst (addDocuments st docs embedRes insertRes)) = documents st \/
      exists es docs', embedRes = Ok es /\ (length docs < length es)%nat /\
        length docs' = length docs /\
        documents (fst (addDocuments st docs embedRes insertRes)) =
          (documents st ++ docs')%list /\
        (insertRes = Ok None -> docs' = docs) /\
        (forall rows, insertRes = Ok (Some rows) ->
           docs' = map (fun p => setId (fst p) (snd p)) (combine docs rows)))) /\
  (snd (addDocuments st docs embedRes insertRes) = Ok tt ->
     exists docs' es,
       documents (fst (addDocuments st docs embedRes insertRes)) =
         (documents st ++ docs')%list /\
       length docs' = length docs /\ embedRes = Ok es /\
       length (embeddings (fst (addDocuments st docs embedRes insertRes))) =
         (length (embeddings st) + length es)%nat /\
       (insertRes = Ok None -> docs' = docs) /\
       (forall rows, insertRes = Ok (Some rows) ->
          docs' = map (fun p => setId (fst p) (snd p)) (combine docs rows) /\
          (length docs <= length rows)%nat /\
          map did docs' = firstn (length docs) rows /\ Forall wellFormed docs')).
Proof.
  destruct embedRes as [es|m0]; [|split; [intros m _; split; [reflexivity | left; reflexivity] | discriminate]].
  destruct insertRes as [ins|m0]; [|split; [intros m _; split; [reflexivity | left; reflexivity] | discriminate]].
  cbn.
  set (sel := match ins with Some rows => assignIds docs rows | None => Some docs end).
  assert (Hsel : forall docs', sel = Some docs' ->
            length docs' = length docs /\ (ins = None -> docs' = docs) /\
            (forall rows, ins = Some rows ->
               docs' = map (fun p => setId (fst p) (snd p)) (combine docs rows) /\
               (length docs <= length rows)%nat /\
               map did docs' = firstn (length docs) rows /\ Forall wellFormed docs')).
  { intros docs' E. unfold sel in E. destruct ins as [rows|].
    - split; [exact (MemoryFacts.assignIds_length _ _ _ E)|].
      split; [discriminate|]. intros rows' Hr; injection Hr as <-.
      destruct (assignIds_combine _ _ _ E) as [Hc Hle].
      split; [exact Hc|]. split; [exact Hle|].
      split; [exact (assignIds_ids _ _ _ E) | exact (MemoryFacts.assignIds_wellFormed _ _ _ E)].
    - injection E as <-. split; [reflexivity|]. split; [reflexivity | discriminate]. }
  destruct sel as [docs'|] eqn:Es.
  - destruct (Hsel docs' eq_refl) as (Hl & Hn & Hr).
    destruct (embeddingItems es docs') as [items|] eqn:Ei; cbn.
    + split; [discriminate|]. intros _. exists docs', es.
      split; [reflexivity|]. split; [exact Hl|]. split; [reflexivity|].
      split; [rewrite length_app, (embeddingItems_length _ _ _ Ei); reflexivity|].
      split; [intro H; injection H as H; exact (Hn H)|].
      intros rows H; injection H as H; exact (Hr rows H).
    + split; [|discriminate]. intros m _. split; [reflexivity|]. right.
      exists es, docs'. split; [reflexivity|].
      split; [rewrite <- Hl; exact (embeddingItems_none _ _ Ei)|].
      split; [exact Hl|]. split; [reflexivity|].
      split; [intro H; injection H as H; exact (Hn H)|].
      intros rows H; injection H as H; exact (proj1 (Hr rows H)).
  - cbn. split; [|discriminate]. intros m _. split; [reflexivity | left; reflexivity].
Qed.

Lemma addDocuments_outcome_witness :
  exists docs' es,
    documents (fst (addDocuments empty_state [MemoryFixtures.doc_note]
                      (Ok [[1%Q; 0%Q]]) (Ok (Some ["uuid-1"])))) =
      (documents empty_state ++ docs')%list /\
    length docs' = 1%nat /\ Ok [[1%Q; 0%Q]] = Ok es /\
    length (embeddings (fst (addDocuments empty_state [MemoryFixtures.doc_note]
                               (Ok [[1%Q; 0%Q]]) (Ok (Some ["uuid-1"]))))) =
      (length (embeddings empty_state) + length es)%nat /\
    (Ok (Some ["uuid-1"]) = Ok None -> docs' = [MemoryFixtures.doc_note]) /\
    (forall rows, Ok (Some ["uuid-1"]) = Ok (Some rows) ->
       docs' = map (fun p => setId (fst p) (snd p)) (combine [MemoryFixtures.doc_note] rows) /\
       (1 <= length rows)%nat /\
       map did docs' = firstn 1 rows /\ Forall wellFormed docs').
Proof.
  exact (proj2 (addDocuments_outcome empty_state [MemoryFixtures.doc_note]
                  (Ok [[1%Q; 0%Q]]) (Ok (Some ["uuid-1"]))) eq_refl).
Defined.

(** Every outcome of [deleteDocument] other than a successful deletion
    leaves memory unchanged; a successful one removes exactly the
    documents and embedding entries carrying that id and keeps all others. *)
Theorem deleteDocument_outcome (st : RagState) (id : string)
    (getRes : Result (option DbRow)) (removeRes deleteRes : Result unit) :
  (snd (deleteDocument st id getRes removeRes deleteRes) = Ok true ->
   (forall d, In d (documents (fst (deleteDocument st id getRes removeRes deleteRes))) <->
              In d (documents st) /\ did d <> id) /\
   (forall e, In e (embeddings (fst (deleteDocument st id getRes removeRes deleteRes))) <->
              In e (embeddings st) /\ mid (emeta e) <> id)) /\
  (snd (deleteDocument st id getRes removeRes deleteRes) <> Ok true ->
   fst (deleteDocument st id getRes removeRes deleteRes) = st).
Proof.
  destruct getRes as [[row|]|m], deleteRes as [u|m1]; cbn;
    split; intro H; try congruence.
  split; intro x;
    [apply (Forall_filter_neg did) | apply (Forall_filter_neg (fun e => mid (emeta e)))].
Qed.

Lemma deleteDocument_outcome_witness :
  (forall d, In d (documents (fst (deleteDocument StoreFixtures.st_note "doc_1"
                                     (Ok (Some StoreFixtures.row_note)) (Ok tt) (Ok tt)))) <->
             In d (documents StoreFixtures.st_note) /\ did d <> "doc_1") /\
  (forall e, In e (embeddings (fst (deleteDocument StoreFixtures.st_note "doc_1"
                                     (Ok (Some StoreFixtures.row_note)) (Ok tt) (Ok tt)))) <->
             In e (embeddings StoreFixtures.st_note) /\ mid (emeta e) <> "doc_1").
Proof.
  exact (proj1 (deleteDocument_outcome StoreFixtures.st_note "doc_1"
                  (Ok (Some StoreFixtures.row_note)) (Ok tt) (Ok tt)) eq_refl).
Defined.

(** [DELETE /documents/:id] when the lookup by id reports an error: a
    [PGRST116] ("no row") error gives a 404 "Document not found" reply,
    any other error a 500 reply naming it, and memory is unchanged in both
    cases. *)
Theorem deleteRoute_lookup_error (st : RagState) (id : string) (data : option DbRow)
    (e : PgError) (removeRes deleteRes : Result unit) :
  fst (deleteDocument st id (getDocumentById data (Some e)) removeRes deleteRes) = st /\
  deleteRoute id (snd (deleteDocument st id (getDocumentById data (Some e))
                         removeRes deleteRes)) =
    if String.eqb (code e) "PGRST116"
    then {| status := 404; rsuccess := false; rtext := "Document not found" |}
    else {| status := 500; rsuccess := false;
            rtext := "Failed to fetch document: " ++ pmessage e |}.
Proof.
  unfold getDocumentById. destruct (String.eqb (code e) "PGRST116"); split; reflexivity.
Qed.

(** [POST /documents] hands [addDocuments] documents whose [id] and
    [metadata.id] agree; on success it reports the number of documents sent
    and a total equal to the previous count plus that number, and, when the
    embedding service returns one vector per document, it keeps the two
    in-memory lists aligned. *)
Theorem addDocumentsRoute_outcome (st : RagState) (reqs : list ReqDoc)
    (embedRes : Result (list (list Q))) (insertRes : Result (option (list string))) :
  Forall wellFormed (map formatDoc reqs) /\
  (forall n total, snd (addDocumentsRoute st reqs embedRes insertRes) = Ok (n, total) ->
     n = length reqs /\ total = (length (documents st) + length reqs)%nat) /\
  (consistent st -> (forall es, embedRes = Ok es -> length es = length reqs) ->
   consistent (fst (addDocumentsRoute st reqs embedRes insertRes))).
Proof.
  split; [apply formatDoc_wellFormed|]. split.
  - intros n total H. unfold addDocumentsRoute in H.
    pose proof (proj2 (addDocuments_outcome st (map formatDoc reqs) embedRes insertRes)) as Hok.
    destruct (addDocuments st (map formatDoc reqs) embedRes insertRes) as [st' [[]|m]];
      cbn in H; [|discriminate].
    injection H as <- <-. split; [reflexivity|].
    destruct (Hok eq_refl) as (docs' & es & Hd & Hl & _). cbn in Hd.
    unfold getStats. cbn. rewrite Hd, length_app, Hl, length_map. reflexivity.
  - intros Hst Hlen. exact (addRoute_consistent st reqs embedRes insertRes Hst Hlen).
Qed.

Lemma addDocumentsRoute_outcome_witness :
  consistent (fst (addDocumentsRoute empty_state [StoreFixtures.req_a]
                     (Ok [[1%Q]]) (Ok (Some ["uuid-1"])))).
Proof.
  apply (proj2 (proj2 (addDocumentsRoute_outcome empty_state [StoreFixtures.req_a]
                         (Ok [[1%Q]]) (Ok (Some ["uuid-1"]))))).
  - reflexivity.
  - intros es H. injection H as <-. reflexivity.
Defined.

(** Over any sequence of loads, uploads, [POST /documents] additions,
    deletions and clears in which the embedding service returns one vector
    per document, the in-memory lists stay aligned, so [getStats] always
    reports as many embeddings as documents. *)
Theorem runOps_stats_agree (st : RagState) (ops : list Op) :
  consistent st -> Forall embedContract ops ->
  consistent (runOps st ops) /\
  totalDocuments (getStats (runOps st ops)) = totalEmbeddings (getStats (runOps st ops)).
Proof.
  intros Hst Hops.
  assert (Hc : consistent (runOps st ops)).
  { unfold runOps. revert st Hst. induction Hops as [|op ops Hop _ IH]; intros st Hst;
      [exact Hst|].
    cbn. apply IH. destruct op; cbn.
    - apply load_consistent, Hst.
    - apply upload_consistent, Hst.
    - apply addRoute_consistent; [exact Hst | exact Hop].
    - apply delete_consistent, Hst.
    - apply clear_consistent, Hst. }
  split; [exact Hc|]. unfold getStats. cbn.
  unfold consistent in Hc. rewrite <- (length_map did (documents _)), Hc, length_map.
  reflexivity.
Qed.

Lemma runOps_stats_agree_witness :
  consistent (runOps empty_state StoreFixtures.ops_sample) /\
  totalDocuments (getStats (runOps empty_state StoreFixtures.ops_sample)) =
    totalEmbeddings (getStats (runOps empty_state StoreFixtures.ops_sample)).
Proof.
  apply runOps_stats_agree; [reflexivity|].
  repeat constructor. intros es H. injection H as <-. reflexivity.
Defined.

End StoreFacts.

Module QueryFacts2.
Import Num Ranker RagQuery Memory.
Open Scope Q_scope.

Lemma rank_above (config : RAGConfig) (sims : list Scored) :
  Forall (fun s => exists q, similarity s = Fin q /\ similarityThreshold config <= q)
    (rank config sims).
Proof.
  unfold rank.
  assert (H : Forall (fun s => exists q, similarity s = Fin q /\ similarityThreshold config <= q)
                (sort (filter (aboveThreshold config) sims))).
  { apply RankerFacts.Forall_sort. apply Forall_forall. intros x Hx.
    apply filter_In in Hx as [_ Hx]. unfold aboveThreshold, ge in Hx.
    destruct (similarity x) as [q|]; [|discriminate].
    exists q. split; [reflexivity | apply Qle_bool_iff, Hx]. }
  unfold slice0. destruct (maxContextDocuments config <? 0)%Z; apply TextFacts.Forall_firstn, H.
Qed.

Lemma sum_above (thr : Q) (l : list Scored) (a : Q) :
  Forall (fun s => exists q, similarity s = Fin q /\ thr <= q) l ->
  exists S, fold_left (fun s item => add s (similarity item)) l (Fin a) = Fin S /\
            a + inject_Z (Z.of_nat (length l)) * thr <= S.
Proof.
  intro H. revert a. induction H as [|s l [q [Eq Hq]] _ IH]; intro a.
  - exists a. split; [reflexivity|].
    replace (inject_Z (Z.of_nat (length (@nil Scored)))) with 0 by reflexivity. lra.
  - cbn [fold_left]. rewrite Eq. cbn [add]. destruct (IH (a + q)) as [S [ES HS]].
    exists S. split; [exact ES|].
    assert (Ek : inject_Z (Z.of_nat (length (s :: l))) ==
                 inject_Z (Z.of_nat (length l)) + 1).
    { rewrite length_cons, Nat2Z.inj_succ, <- Z.add_1_r, inject_Z_plus. reflexivity. }
    rewrite Ek. set (k := inject_Z (Z.of_nat (length l))) in *. nra.
Qed.

Lemma Qmake_1000 (z : Z) : z # 1000 == inject_Z z * (1 # 1000).
Proof. unfold Qeq. cbn. ring. Qed.

Lemma toFixed3_lower (a c : Q) : toFixed3 (Fin a) = Fin c -> a - (1 # 2000) <= c.
Proof.
  unfold toFixed3. destruct (Qle_bool 0 a); intro H.
  - assert (Hc : c = Qfloor (a * 1000 + (1 # 2)) # 1000) by congruence. subst c.
    rewrite Qmake_1000. pose proof (Qlt_floor (a * 1000 + (1 # 2))) as L.
    rewrite inject_Z_plus in L. change (inject_Z 1) with 1 in L. lra.
  - assert (Hc : c = - Qfloor (- a * 1000 + (1 # 2)) # 1000) by congruence. subst c.
    rewrite Qmake_1000, inject_Z_opp. pose proof (Qfloor_le (- a * 1000 + (1 # 2))) as L.
    lra.
Qed.

(** [query] sends one embeddings request for the prompt and then at most
    one chat request, with the same prompt; an answer from the chat model
    comes with a confidence no more than 0.0005 below the similarity
    threshold (the average of the used similarities rounded to three
    decimals). *)
Theorem query_calls_and_confidence (config : RAGConfig) (documents : list Document)
    (embeddings : list EmbeddingItem) (prompt : string)
    (embedRes : Result (list (list Q))) (chatRes : Result string) (elapsed : Z) :
  (fst (query config documents embeddings prompt embedRes chatRes elapsed) =
     [CallEmbeddings [prompt]] \/
   exists ctx, fst (query config documents embeddings prompt embedRes chatRes elapsed) =
     [CallEmbeddings [prompt]; CallChat prompt ctx]) /\
  (forall res, snd (query config documents embeddings prompt embedRes chatRes elapsed) = Ok res ->
   context res <> [] ->
   exists c, confidence res = Fin c /\ similarityThreshold config - (1 # 2000) <= c).
Proof.
  unfold query.
  destruct embedRes as [qs|m]; [|split; [left; reflexivity | discriminate]].
  destruct (scoreAll (hd_error qs) documents embeddings) as [sims|m];
    [|split; [left; reflexivity | discriminate]].
  pose proof (rank_above config sims) as Ha.
  destruct (rank config sims) as [|s l] eqn:Er.
  - split; [left; reflexivity|]. intros res H. injection H as <-. cbn. congruence.
  - destruct (contextParts (s :: l)) as [parts|]; [|split; [left; reflexivity | discriminate]].
    destruct chatRes as [resp|m].
    + split; [right; eexists; reflexivity|]. intros res H _. injection H as <-.
      cbn [confidence]. unfold sumSimilarity.
      destruct (sum_above _ _ 0 Ha) as [S [ES HS]]. rewrite ES.
      change (inject_Z (Z.of_nat (length (s :: l))))
        with (inject_Z (Z.pos (Pos.of_succ_nat (length l)))) in HS.
      set (n := inject_Z (Z.pos (Pos.of_succ_nat (length l)))) in *.
      assert (Hn : 0 < n).
      { unfold n. change 0 with (inject_Z 0). rewrite <- Zlt_Qlt. apply Pos2Z.is_pos. }
      cbn [div]. replace (Qeq_bool n 0) with false.
      2: { symmetry. apply not_true_iff_false. intro E. apply Qeq_bool_eq in E. lra. }
      destruct (toFixed3 (Fin (S / n))) as [c|] eqn:Et.
      2: { unfold toFixed3 in Et. destruct (Qle_bool 0 (S / n)); discriminate. }
      exists c. split; [reflexivity|].
      pose proof (toFixed3_lower _ _ Et) as Lc.
      assert (Havg : similarityThreshold config <= S / n).
      { apply Qle_shift_div_l; [exact Hn|]. lra. }
      lra.
    + split; [right; eexists; reflexivity | discriminate].
Qed.

Lemma query_calls_and_confidence_witness :
  exists res,
    snd (query RankOrder.cfg_default (documents StoreFixtures.st_note)
           (embeddings StoreFixtures.st_note) "revenue?" (Ok [[1%Q; 0%Q]]) (Ok "It grew")
           7) = Ok res /\
    exists c, confidence res = Fin c /\
              similarityThreshold RankOrder.cfg_default - (1 # 2000) <= c.
Proof.
  eexists. split; [reflexivity|].
  apply (proj2 (query_calls_and_confidence RankOrder.cfg_default
                  (documents StoreFixtures.st_note) (embeddings StoreFixtures.st_note)
                  "revenue?" (Ok [[1%Q; 0%Q]]) (Ok "It grew") 7)).
  - reflexivity.
  - vm_compute. discriminate.
Defined.

End QueryFacts2.

Module ThrottleFacts2.
Import Throttle.
Open Scope Z_scope.

Ltac zcases :=
  repeat match goal with
  | |- context [?a >? ?b] => destruct (Z.gtb_spec a b); cbv beta iota zeta
  | |- context [?a >=? ?b] => destruct (Z.geb_spec a b); cbv beta iota zeta
  | |- context [?a <? ?b] => destruct (Z.ltb_spec a b); cbv beta iota zeta
  end; cbn [fst snd]; lia.

(** When a provider has used its quota of the window and the call comes
    exactly 60000 ms after the window started, neither the reset (strict
    test [> 60000]) nor the window wait (test [waitTime > 0]) applies: the
    window is kept, its count goes one past the maximum, and the call
    proceeds as soon as the minimum delay since the previous call allows,
    at [max(now, lastRequestTime + delay)]. *)
Theorem provider_window_boundary (cfg : RateConfig) (st : RateState) (now : Z) :
  requestCount st >= maxRequestsPerMinute cfg ->
  now - lastResetTime st = 60000 ->
  provider_enforce cfg st now =
    ({| lastRequestTime := Z.max now (lastRequestTime st + rateLimitDelayMs cfg);
        requestCount := requestCount st + 1;
        lastResetTime := lastResetTime st |},
     Z.max now (lastRequestTime st + rateLimitDelayMs cfg)).
Proof.
  intros Hc Hw. unfold provider_enforce.
  replace (now - lastResetTime st >? 60000) with false
    by (symmetry; rewrite Z.gtb_ltb; apply Z.ltb_ge; lia).
  replace (requestCount st >=? maxRequestsPerMinute cfg) with true
    by (symmetry; apply Z.geb_le; lia).
  replace (60000 - (now - lastResetTime st) >? 0) with false
    by (symmetry; rewrite Z.gtb_ltb; apply Z.ltb_ge; lia).
  cbv beta iota zeta.
  replace (if now - lastRequestTime st <? rateLimitDelayMs cfg
           then now + (rateLimitDelayMs cfg - (now - lastRequestTime st)) else now)
    with (Z.max now (lastRequestTime st + rateLimitDelayMs cfg))
    by (destruct (Z.ltb_spec (now - lastRequestTime st) (rateLimitDelayMs cfg)); lia).
  reflexivity.
Qed.

Lemma provider_window_boundary_witness :
  provider_enforce providerConfig
      {| lastRequestTime := 97000; requestCount := 5; lastResetTime := 40000 |} 100000 =
    ({| lastRequestTime := 105000; requestCount := 6; lastResetTime := 40000 |}, 105000).
Proof.
  exact (provider_window_boundary providerConfig
           {| lastRequestTime := 97000; requestCount := 5; lastResetTime := 40000 |} 100000
           ltac:(cbn; lia) ltac:(cbn; lia)).
Defined.

(** Waits are bounded: with a non-negative delay and previous times not in
    the future, the provider lets a call proceed at most 60000 ms plus the
    delay after it arrives, and the Supabase client at most the delay
    after it arrives. *)
Theorem enforce_wait_bounded (cfg : RateConfig) (st : RateState) (delay last now : Z) :
  0 <= rateLimitDelayMs cfg -> lastRequestTime st <= now -> lastResetTime st <= now ->
  0 <= delay -> last <= now ->
  snd (provider_enforce cfg st now) <= now + 60000 + rateLimitDelayMs cfg /\
  snd (supabase_enforce delay last now) <= now + delay.
Proof.
  intros H1 H2 H3 H4 H5. split.
  - unfold provider_enforce. zcases.
  - unfold supabase_enforce. zcases.
Qed.

Lemma enforce_wait_bounded_witness :
  snd (provider_enforce providerConfig ThrottleFixtures.st_full 100000)
    <= 100000 + 60000 + 8000 /\
  snd (supabase_enforce 8000 99000 100000) <= 100000 + 8000.
Proof.
  exact (enforce_wait_bounded providerConfig ThrottleFixtures.st_full 8000 99000 100000
           ltac:(cbn; lia) ltac:(cbn; lia) ltac:(cbn; lia) ltac:(lia) ltac:(lia)).
Defined.

End ThrottleFacts2.

Module ErrorFacts.
Import Store ServerErrors.
Open Scope Z_scope.

(** The global error handler always answers with [success: false] and a
    status of 400, 429 or 500; the thrown error's own message reaches the
    client only behind the ["Validation error: "] prefix, and only for a
    validation error; every other reply is one of three fixed texts. *)
Theorem errorHandler_reply (e : FastifyError) :
  rsuccess (errorHandler e) = false /\
  (status (errorHandler e) = 400 \/ status (errorHandler e) = 429 \/
   status (errorHandler e) = 500) /\
  ((validation e = true /\ rtext (errorHandler e) = "Validation error: " ++ emessage e) \/
   In (rtext (errorHandler e))
     ["File too large. Maximum size is 10MB."; "Too many requests. Please try again later.";
      "Internal server error"]).
Proof.
  unfold errorHandler.
  destruct (match ecode e with Some c => String.eqb c "FST_REQ_FILE_TOO_LARGE" | None => false end).
  { cbn. intuition. }
  destruct (validation e) eqn:Ev.
  { cbn. intuition. }
  destruct (match statusCode e with Some s => Z.eqb s 429 | None => false end); cbn; intuition.
Qed.

End ErrorFacts.

Module ViewFacts.
Import JsString JsText Selector Views.

Lemma array_includes_In (xs : list string) (x : string) :
  array_includes xs x = true <-> In x xs.
Proof.
  unfold array_includes. rewrite existsb_exists. split.
  - intros (y & Hy & E). apply String.eqb_eq in E. subst. exact Hy.
  - intro H. exists x. split; [exact H | apply String.eqb_refl].
Qed.

Lemma setValuesFrom_spec (seen xs : list string) :
  NoDup (setValuesFrom seen xs) /\
  (forall x, In x (setValuesFrom seen xs) <-> In x xs /\ ~ In x seen).
Proof.
  revert seen. induction xs as [|y xs IH]; intro seen; cbn.
  - split; [constructor | tauto].
  - destruct (array_includes seen y) eqn:E.
    + apply array_includes_In in E. destruct (IH seen) as [Hn Hm]. split; [exact Hn|].
      intro x. rewrite Hm. split; [tauto|]. intros [[<- | Hx] Hs]; [contradiction | tauto].
    + assert (E' : ~ In y seen) by (rewrite <- array_includes_In, E; discriminate).
      destruct (IH (y :: seen)) as [Hn Hm]. split.
      * constructor; [|exact Hn]. rewrite Hm. cbn. tauto.
      * intro x. cbn. rewrite Hm. cbn. split.
        { intros [<- | [Hx Hs]]; [tauto|]. tauto. }
        { intros [[<- | Hx] Hs]; [tauto|]. destruct (String.eqb_spec y x) as [<- | Ne]; [tauto|].
          right. split; [exact Hx|]. intros [Ey | Hs']; [exact (Ne Ey) | exact (Hs Hs')]. }
Qed.

Lemma setValues_spec (xs : list string) :
  NoDup (setValues xs) /\ (forall x, In x (setValues xs) <-> In x xs).
Proof.
  destruct (setValuesFrom_spec [] xs) as [Hn Hm]. split; [exact Hn|].
  intro x. unfold setValues. rewrite Hm. cbn. tauto.
Qed.

Lemma substring0_short (n : nat) (s : string) :
  (String.length s <= n)%nat -> substring0 n s = s.
Proof.
  unfold substring0. revert n. induction s as [|c t IH]; intros n H; destruct n; cbn in *;
    try reflexivity; try lia.
  f_equal. apply IH. lia.
Qed.

Lemma substring0_length (n : nat) (s : string) :
  String.length (substring0 n s) = Nat.min n (String.length s).
Proof.
  unfold substring0. revert n. induction s as [|c t IH]; intros n; destruct n; cbn; try reflexivity.
  f_equal. apply IH.
Qed.

Lemma substring0_prefix (n : nat) (s : string) :
  String.prefix (substring0 n s) s = true.
Proof.
  unfold substring0. revert n. induction s as [|c t IH]; intros n; destruct n; cbn; try reflexivity.
  destruct (Ascii.ascii_dec c c) as [_ | N]; [apply IH | contradiction].
Qed.

Lemma length_app (a b : string) :
  String.length (a ++ b) = (String.length a + String.length b)%nat.
Proof. induction a as [|c a IH]; cbn; [reflexivity | now rewrite IH]. Qed.

(** The summary of [GET /view] counts the documents it received and
    lists each file type once, exactly the file types that occur among
    the documents, in order of first appearance. *)
Theorem viewSummary_sets (docs : list SupabaseDocument) :
  total_documents (viewSummary docs) = length docs /\
  NoDup (file_types (viewSummary docs)) /\
  (forall t, In t (file_types (viewSummary docs)) <-> exists d, In d docs /\ file_type d = t).
Proof.
  cbn [viewSummary total_documents file_types].
  destruct (setValues_spec (map file_type docs)) as [Hn1 Hm1].
  split; [reflexivity|]. split; [exact Hn1|].
  intro t. rewrite Hm1, in_map_iff. firstorder.
Qed.

(** The content preview of the view page is the whole content when it has
    at most 100 characters; otherwise it is the first 100 characters
    followed by ["..."], 103 characters in all. *)
Theorem viewPreview_cases (content : string) :
  ((String.length content <= 100)%nat -> viewPreview content = content) /\
  ((100 < String.length content)%nat ->
   viewPreview content = substring0 100 content ++ "..." /\
   String.prefix (substring0 100 content) content = true /\
   String.length (viewPreview content) = 103%nat).
Proof.
  unfold viewPreview. split.
  - intro H. replace (100 <? String.length content)%nat with false
      by (symmetry; apply Nat.ltb_ge; exact H).
    rewrite substring0_short by exact H. apply TextFacts.str_app_nil.
  - intro H. replace (100 <? String.length content)%nat with true
      by (symmetry; apply Nat.ltb_lt; exact H).
    split; [reflexivity|]. split; [apply substring0_prefix|].
    rewrite length_app, substring0_length. cbn [String.length]. lia.
Qed.

Lemma viewPreview_cases_witness :
  viewPreview "Revenue: 100" = "Revenue: 100".
Proof.
  exact (proj1 (viewPreview_cases "Revenue: 100") ltac:(cbn; lia)).
Defined.

(** The content preview of the document list always ends in ["..."], even
    for a short content, after at most 150 characters of the content. *)
Theorem listPreview_shape (content : string) :
  listPreview content = substring0 150 content ++ "..." /\
  String.prefix (substring0 150 content) content = true /\
  String.length (listPreview content) = (Nat.min 150 (String.length content) + 3)%nat.
Proof.
  unfold listPreview. split; [reflexivity|]. split; [apply substring0_prefix|].
  rewrite length_app, substring0_length. reflexivity.
Qed.

(** [getDetailedStats] on a successful fetch counts the documents (the
    chunk count is the document count), lists each file type once and
    exactly those present, and gives the first five documents (at most five)
    as recent documents, in the order returned; on a failed fetch it falls
    back to the basic statistics unchanged. *)
Theorem getDetailedStats_shape (docs : list SupabaseDocument) (basic : Store.Stats) (m : string) :
  getDetailedStats (Err m) basic = inr basic /\
  exists ds, getDetailedStats (Ok docs) basic = inl ds /\
    documentCount ds = length docs /\ totalChunks ds = length docs /\
    NoDup (fileTypes ds) /\
    (forall t, In t (fileTypes ds) <-> exists d, In d docs /\ file_type d = t) /\
    length (recentDocuments ds) = Nat.min 5 (length docs) /\
    map rd_id (recentDocuments ds) = map id (firstn 5 docs).
Proof.
  split; [reflexivity|]. eexists. split; [reflexivity|].
  cbn [documentCount totalChunks fileTypes recentDocuments].
  destruct (setValues_spec (map file_type docs)) as [Hn Hm].
  split; [reflexivity|]. split; [reflexivity|]. split; [exact Hn|]. split.
  - intro t. rewrite Hm, in_map_iff. firstorder.
  - rewrite length_map, length_firstn. split; [reflexivity|].
    rewrite map_map. reflexivity.
Qed.

End ViewFacts.

Module SelectorFacts2.
Import JsString Selector Prompt.

Lemma filter_false_nil (l : list SupabaseDocument) : filter (fun _ => false) l = [].
Proof. induction l; cbn; auto. Qed.

Lemma filter_true_id (l : list SupabaseDocument) : filter (fun _ => true) l = l.
Proof. induction l as [|x l IH]; cbn; [reflexivity | now rewrite IH]. Qed.

Lemma filter_filter_and (p g : SupabaseDocument -> bool) (l : list SupabaseDocument) :
  filter g (filter p l) = filter (fun x => p x && g x) l.
Proof.
  induction l as [|x l IH]; cbn; [reflexivity|].
  destruct (p x); cbn; [destruct (g x); cbn; now rewrite IH | exact IH].
Qed.

Lemma narrow_filter (all sel : list SupabaseDocument) (q : SupabaseDocument -> bool) :
  (exists p, sel = filter p all) ->
  exists p', match sel with
             | _ :: _ => intersectById sel (filter q all)
             | [] => filter q all
             end = filter p' all.
Proof.
  intros [p Hp]. destruct sel as [|x xs].
  - exists q. reflexivity.
  - unfold intersectById. rewrite Hp, filter_filter_and. eexists. reflexivity.
Qed.

Lemma Forall_filter_sub (P : SupabaseDocument -> Prop) (g : SupabaseDocument -> bool)
    (l : list SupabaseDocument) :
  Forall P l -> Forall P (filter g l).
Proof.
  induction 1 as [|x l Hx _ IH]; cbn; [constructor|].
  destruct (g x); [constructor|]; assumption.
Qed.

Lemma Forall_filter_by (P : SupabaseDocument -> Prop) (q : SupabaseDocument -> bool)
    (l : list SupabaseDocument) :
  (forall d, q d = true -> P d) -> Forall P (filter q l).
Proof.
  intro H. apply Forall_forall. intros x Hx. apply filter_In in Hx as [_ Hx]. exact (H x Hx).
Qed.

Lemma narrow_Forall (P : SupabaseDocument -> Prop) (all sel : list SupabaseDocument)
    (q : SupabaseDocument -> bool) :
  Forall P sel -> (forall d, q d = true -> P d) ->
  Forall P (match sel with
            | _ :: _ => intersectById sel (filter q all)
            | [] => filter q all
            end).
Proof.
  intros Hs Hq. destruct sel as [|x xs].
  - apply Forall_filter_by, Hq.
  - unfold intersectById. apply Forall_filter_sub, Hs.
Qed.

Lemma absent_false {A} (xs : option A) : xs <> None -> absent xs = false.
Proof. destruct xs; [reflexivity | contradiction]. Qed.

(** Whatever the request, the documents [/query] selects are the documents
    of the store's snapshot that satisfy some test, in the snapshot's
    order: selection never invents, repeats or reorders documents. *)
Theorem selection_is_filter (req : EnhancedQueryRequest) (allDocs : list SupabaseDocument) :
  exists p, fst (selectDocuments req allDocs) = filter p allDocs.
Proof.
  unfold selectDocuments.
  destruct (nonEmpty (documentIds req)), (nonEmpty (documentNames req)), (nonEmpty (qtags req));
    cbv beta iota zeta;
    match goal with
    | |- context [if ?c then (allDocs, _) else _] => destruct c
    end; cbn [fst];
    try (exists (fun _ => true); symmetry; apply filter_true_id);
    repeat apply narrow_filter;
    first [ eexists; reflexivity
          | exists (fun _ => false); symmetry; apply filter_false_nil ].
Qed.

(** With [useAllDocuments: true] and no tags filter the selection is the
    whole snapshot, whatever the documentIds and documentNames criteria
    say. (With a tags filter a row whose [tags] is [NULL] makes the tag
    step throw before this point.) *)
Theorem selection_useAll (req : EnhancedQueryRequest) (allDocs : list SupabaseDocument) :
  useAllDocuments req = Some true -> nonEmpty (qtags req) = false ->
  fst (selectDocuments req allDocs) = allDocs.
Proof.
  intros Hu Ht. unfold selectDocuments. rewrite Ht.
  destruct (nonEmpty (documentIds req)), (nonEmpty (documentNames req));
    cbv beta iota zeta; rewrite Hu; reflexivity.
Qed.

Lemma selection_useAll_witness :
  fst (selectDocuments
         {| prompt := "Total?"; documentIds := Some ["nope"]; documentNames := Some ["income"];
            qtags := None; useAllDocuments := Some true; userResponse := None |}
         [SelectorFixtures.doc_income]) = [SelectorFixtures.doc_income].
Proof. apply selection_useAll; reflexivity. Defined.

(** Without [useAllDocuments: true], once the request carries at least one
    of documentIds, documentNames or tags (even an empty array), every
    selected document matches at least one of the non-empty criteria
    supplied; when none matches, nothing is selected. *)
Theorem selection_matches_some_criterion (req : EnhancedQueryRequest)
    (allDocs : list SupabaseDocument) :
  truthy (useAllDocuments req) = false ->
  (documentIds req <> None \/ documentNames req <> None \/ qtags req <> None) ->
  Forall (fun d => matchesSupplied req d = true) (fst (selectDocuments req allDocs)).
Proof.
  intros Hu Hp.
  assert (Hab : forall m, m && absent (documentIds req) && absent (documentNames req)
                          && absent (qtags req) = false).
  { intro m. destruct Hp as [H | [H | H]]; rewrite (absent_false _ H);
      [| | ]; rewrite ?andb_false_r; reflexivity. }
  unfold selectDocuments.
  destruct (nonEmpty (documentIds req)) eqn:E1, (nonEmpty (documentNames req)) eqn:E2,
    (nonEmpty (qtags req)) eqn:E3;
    cbv beta iota zeta; rewrite Hu, Hab; cbn [orb fst];
    repeat (apply narrow_Forall; [| intros d Hd; unfold matchesSupplied;
                                   rewrite ?E1, ?E2, ?E3, ?Hd, ?orb_true_r; reflexivity]);
    first [ constructor
          | apply Forall_filter_by; intros d Hd; unfold matchesSupplied;
            rewrite ?E1, ?E2, ?E3, ?Hd; cbn [andb orb]; rewrite ?orb_true_r; reflexivity ].
Qed.

Lemma selection_matches_some_criterion_witness :
  Forall (fun d => matchesSupplied SelectorFixtures.req_names_tags d = true)
    (fst (selectDocuments SelectorFixtures.req_names_tags [SelectorFixtures.doc_income])).
Proof.
  apply selection_matches_some_criterion; [reflexivity|]. right; left; discriminate.
Defined.

End SelectorFacts2.

Module PromptFacts.
Import JsString JsText Selector Prompt.

Lemma prefix_app (n r : string) : String.prefix n (n ++ r) = true.
Proof.
  induction n as [|c n IH]; cbn; [destruct r; reflexivity|].
  destruct (Ascii.ascii_dec c c); [exact IH | contradiction].
Qed.

Lemma prefix_app_l (n a b : string) : String.prefix n a = true -> String.prefix n (a ++ b) = true.
Proof.
  revert a. induction n as [|c n IH]; intros a H; [destruct (a ++ b); reflexivity|].
  destruct a as [|c' a]; [discriminate|]. cbn in *.
  destruct (Ascii.ascii_dec c c'); [exact (IH a H) | discriminate].
Qed.

Lemma includes_unfold (hay needle : string) :
  includes hay needle =
  String.prefix needle hay || match hay with EmptyString => false | String _ t => includes t needle end.
Proof. destruct hay; reflexivity. Qed.

Lemma includes_app_l (h n b : string) : includes h n = true -> includes (h ++ b) n = true.
Proof.
  induction h as [|c t IH]; intro H; rewrite includes_unfold in H |- *.
  - destruct n; [destruct b; reflexivity | discriminate].
  - apply orb_true_iff in H as [H | H].
    + rewrite (prefix_app_l _ _ _ H). reflexivity.
    + cbn [String.append]. rewrite (IH H), orb_true_r. reflexivity.
Qed.

Lemma includes_app_r (a h n : string) : includes h n = true -> includes (a ++ h) n = true.
Proof.
  intro H. induction a as [|c a IH]; [exact H|].
  cbn [String.append]. rewrite includes_unfold, IH, orb_true_r. reflexivity.
Qed.

Lemma includes_refl_app (n r : string) : includes (n ++ r) n = true.
Proof. rewrite includes_unfold, prefix_app. reflexivity. Qed.

Lemma concat_includes (sep : string) (xs : list string) (x : string) :
  In x xs -> includes (String.concat sep xs) x = true.
Proof.
  induction xs as [|y xs IH]; [contradiction|]. intros [<- | H].
  - destruct xs; cbn [String.concat].
    + rewrite <- (TextFacts.str_app_nil y) at 1. apply includes_refl_app.
    + apply includes_refl_app.
  - destruct xs as [|z zs]; [contradiction|]. cbn [String.concat] in *.
    apply includes_app_r, includes_app_r, IH, H.
Qed.

(** With documents selected, the prompt sent to the agent contains, for
    each selected document, its file name, a colon, a line break and the
    first 1000 characters of its content, and then the question itself. *)
Theorem enhancedPrompt_contains (selectedDocuments : list SupabaseDocument)
    (prompt : string) (userResponse : option string) (d : SupabaseDocument) :
  In d selectedDocuments ->
  includes (enhancedPrompt selectedDocuments prompt userResponse)
    (file_name d ++ ":" ++ Upload.nls ++ substring0 1000 (content d)) = true /\
  includes (enhancedPrompt selectedDocuments prompt userResponse) ("Question: " ++ prompt) = true.
Proof.
  intro Hd. destruct selectedDocuments as [|d0 ds]; [contradiction|].
  unfold enhancedPrompt. split.
  - apply includes_app_r, includes_app_r, includes_app_l, concat_includes.
    rewrite map_map. apply (in_map (fun doc => cname (documentContext doc) ++ ":" ++ Upload.nls ++
                                               ccontent (documentContext doc))). exact Hd.
  - apply includes_app_r, includes_app_r, includes_app_r, includes_app_r, includes_app_r.
    rewrite <- TextFacts.str_app_assoc. apply includes_refl_app.
Qed.

Lemma enhancedPrompt_contains_witness :
  includes (enhancedPrompt [SelectorFixtures.doc_income] "What is revenue?" None)
    ("report.csv" ++ ":" ++ Upload.nls ++ "Revenue: 100") = true /\
  includes (enhancedPrompt [SelectorFixtures.doc_income] "What is revenue?" None)
    ("Question: " ++ "What is revenue?") = true.
Proof.
  exact (enhancedPrompt_contains [SelectorFixtures.doc_income] "What is revenue?" None
           SelectorFixtures.doc_income (or_introl eq_refl)).
Defined.

End PromptFacts.
